(** * notion-to-x-publisher: the Notion-to-Markdown converter

    A shallow embedding of [scripts/fetch_notion_article.py]
    (class [NotionArticleFetcher]) and the properties of its block-tree
    renderer, inline renderer, image numbering and document assembly.

    Conventions of the embedding.
    - A Python [str] is a [string]; each character stands for one code
      point in the range U+0000..U+00FF.
    - The JSON dictionaries returned by the Notion API are records; a key
      read with [.get(key)] or [.get(key, default)] is a field that holds
      what the lookup returns.
    - A block's children, which the code fetches with
      [_get_all_blocks(block["id"])], are the field [children] of the
      block: the remote tree is finite.
    - [self.images], [self.image_counter] and the sequence of calls of
      [_download_image] form the [session] threaded through the methods. *)

From Stdlib Require Import String Ascii List Bool Arith Lia DecimalString
  DecimalNat.
Import ListNotations.
Local Open Scope list_scope.
Local Open Scope string_scope.

(** ** Python string primitives *)

Module Py.

(** The character ["\n"]. *)
Definition nl : string := String "010"%char EmptyString.

(** Truth value of a string: [if s:]. *)
Definition truthy (s : string) : bool :=
  match s with
  | EmptyString => false
  | String _ _ => true
  end.

(** [l.append(x)] *)
Definition append {A : Type} (l : list A) (x : A) : list A :=
  (l ++ [x])%list.

(** [sep.join(parts)] *)
Definition join (sep : string) (parts : list string) : string :=
  String.concat sep parts.

(** [s * n] *)
Fixpoint repeat (s : string) (n : nat) : string :=
  match n with
  | O => ""
  | S k => s ++ repeat s k
  end.

(** [c.isspace()] on U+0000..U+00FF: TAB, LF, VT, FF, CR, the four
    separators FS GS RS US, SPACE, NEL and NBSP. *)
Definition isspace (c : ascii) : bool :=
  let n := nat_of_ascii c in
  (((9 <=? n) && (n <=? 13)) || ((28 <=? n) && (n <=? 32))
   || (n =? 133) || (n =? 160))%nat.

(** [s.lstrip()] *)
Fixpoint lstrip (s : string) : string :=
  match s with
  | EmptyString => EmptyString
  | String c r => if isspace c then lstrip r else s
  end.

(** [s.rstrip()] *)
Fixpoint rstrip (s : string) : string :=
  match s with
  | EmptyString => EmptyString
  | String c r =>
      match rstrip r with
      | EmptyString => if isspace c then EmptyString else String c EmptyString
      | r' => String c r'
      end
  end.

(** [s.strip()] *)
Definition strip (s : string) : string := rstrip (lstrip s).

(** [sub in s] *)
Fixpoint contains (sub s : string) : bool :=
  if String.prefix sub s then true
  else match s with
       | EmptyString => false
       | String _ r => contains sub r
       end.

(** [c in s] for a single character [c]. *)
Fixpoint has_char (c : ascii) (s : string) : bool :=
  match s with
  | EmptyString => false
  | String x r => if Ascii.eqb x c then true else has_char c r
  end.

(** [s[n:]] *)
Fixpoint skip (n : nat) (s : string) : string :=
  match n, s with
  | O, _ => s
  | S _, EmptyString => EmptyString
  | S k, String _ r => skip k r
  end.

(** [s.replace(old, new, 1)]: the first occurrence only. *)
Fixpoint replace_first (old new s : string) : string :=
  if String.prefix old s then new ++ skip (String.length old) s
  else match s with
       | EmptyString => EmptyString
       | String c r => String c (replace_first old new r)
       end.

(** [s.replace(c, new)] for a single character [c]. *)
Fixpoint replace_char (c : ascii) (new s : string) : string :=
  match s with
  | EmptyString => EmptyString
  | String x r =>
      if Ascii.eqb x c then new ++ replace_char c new r
      else String x (replace_char c new r)
  end.

(** [s.split(c)[0]]: the characters before the first [c]. *)
Fixpoint split_head (c : ascii) (s : string) : string :=
  match s with
  | EmptyString => EmptyString
  | String x r => if Ascii.eqb x c then EmptyString else String x (split_head c r)
  end.

(** [c.lower()] on U+0000..U+00FF: A-Z and the capital letters
    U+00C0..U+00DE (the sign U+00D7 apart) move up by 32. *)
Definition lower_char (c : ascii) : ascii :=
  let n := nat_of_ascii c in
  if (((65 <=? n) && (n <=? 90))
      || ((192 <=? n) && (n <=? 222) && negb (n =? 215)))%nat
  then ascii_of_nat (n + 32)
  else c.

(** [s.lower()] *)
Fixpoint lower (s : string) : string :=
  match s with
  | EmptyString => EmptyString
  | String c r => String (lower_char c) (lower r)
  end.

(** [s.rfind(c)] for a single character [c]; [None] stands for -1. *)
Fixpoint rfind (c : ascii) (s : string) : option nat :=
  match s with
  | EmptyString => None
  | String x r =>
      match rfind c r with
      | Some i => Some (S i)
      | None => if Ascii.eqb x c then Some O else None
      end
  end.

(** The [while filenameIndex < dotIndex] loop of [genericpath._splitext],
    run for [n = dotIndex - filenameIndex] iterations: [true] when it
    meets a character other than the dot and returns the split. *)
Fixpoint skip_leading_dots (p : string) (filenameIndex n : nat) : bool :=
  match n with
  | O => false
  | S k =>
      if negb (String.eqb (substring filenameIndex 1 p) ".") then true
      else skip_leading_dots p (S filenameIndex) k
  end.

(** [os.path.splitext(p)] of [posixpath]:
    [sepIndex = p.rfind("/")], [dotIndex = p.rfind(".")]; when
    [dotIndex > sepIndex] and a character of [p[sepIndex+1:dotIndex]] is
    not a dot the result is [(p[:dotIndex], p[dotIndex:])], otherwise
    [(p, "")]. *)
Definition splitext (p : string) : string * string :=
  let sepIndex := rfind "/" p in
  let dotIndex := rfind "." p in
  match dotIndex with
  | None => (p, "")
  | Some d =>
      let filenameIndex :=
        match sepIndex with
        | None => O
        | Some i => S i
        end in
      if (filenameIndex <=? d)%nat then
        if skip_leading_dots p filenameIndex (d - filenameIndex)
        then (substring 0 d p, skip d p)
        else (p, "")
      else (p, "")
  end.

(** [f"{n:03d}"] *)
Definition format_03d (n : nat) : string :=
  let d := NilEmpty.string_of_uint (Nat.to_uint n) in
  repeat "0" (3 - String.length d) ++ d.

(** [x in l] for a list of strings. *)
Fixpoint mem (x : string) (l : list string) : bool :=
  match l with
  | [] => false
  | y :: r => if String.eqb x y then true else mem x r
  end.

(** Every character of [s] is white space. *)
Fixpoint all_space (s : string) : bool :=
  match s with
  | EmptyString => true
  | String c r => isspace c && all_space r
  end.

End Py.

(** ** Rich text *)

(** [item["annotations"]], each flag read with [annotations.get(flag)]. *)
Record annotations := {
  bold : bool;
  italic : bool;
  strikethrough : bool;
  underline : bool;
  code : bool
}.

(** One element of a [rich_text] array. *)
Record rich_text_item := {
  rt_type : string;             (* item.get("type") *)
  plain_text : string;          (* item.get("plain_text", "") *)
  rt_annotations : annotations; (* item.get("annotations", {}) *)
  href : option string;         (* item.get("href") *)
  expression : string           (* item.get("equation", {}).get("expression", "") *)
}.

Definition rich_text := list rich_text_item.

(** Truth value of [item.get("href")]: [None] and [""] are false. *)
Definition href_truthy (h : option string) : bool :=
  match h with
  | Some u => Py.truthy u
  | None => false
  end.

Definition href_text (h : option string) : string :=
  match h with
  | Some u => u
  | None => ""
  end.

(** The body of the [for item in rich_text] loop of
    [_rich_text_to_markdown]: [parts] after the iteration on [item]. *)
Definition rich_text_step (parts : list string) (item : rich_text_item)
  : list string :=
  if String.eqb (rt_type item) "equation" then
    if Py.truthy (Py.strip (expression item))
    then Py.append parts ("$" ++ expression item ++ "$")
    else parts
  else
    let text := plain_text item in
    if negb (Py.truthy text) then parts
    else
      let a := rt_annotations item in
      let text := if bold a then "**" ++ text ++ "**" else text in
      let text := if italic a then "*" ++ text ++ "*" else text in
      let text := if strikethrough a then "~~" ++ text ++ "~~" else text in
      let text := if underline a then "<u>" ++ text ++ "</u>" else text in
      let text := if code a then "`" ++ text ++ "`" else text in
      let text :=
        if href_truthy (href item)
        then "[" ++ text ++ "](" ++ href_text (href item) ++ ")"
        else text in
      Py.append parts text.

(** [_rich_text_to_markdown] *)
Definition _rich_text_to_markdown (rt : rich_text) : string :=
  Py.join "" (fold_left rich_text_step rt []).

(** [_extract_plain_text] on a list. *)
Definition _extract_plain_text (rt : rich_text) : string :=
  Py.join "" (map plain_text rt).

(** ** Images and the conversion session *)

(** An image object: the payload of an image block, or a page cover. *)
Record image_obj := {
  img_type : option string; (* image_obj.get("type") *)
  external_url : string;    (* image_obj.get("external", {}).get("url", "") *)
  file_url : string;        (* image_obj.get("file", {}).get("url", "") *)
  caption : rich_text       (* image_obj.get("caption", []) *)
}.

(** An entry of [self.images]. *)
Record image_record := {
  original_url : string;
  local_path : string;
  type_ : string
}.

(** [self.images], [self.image_counter], and the calls of
    [_download_image] made so far, as pairs (url, local_path), oldest
    first. *)
Record session := {
  images : list image_record;
  image_counter : nat;
  downloads : list (string * string)
}.

(** The outcome of a download is decided outside the program: [net n url
    path] tells whether the call number [n] (counting from 0) of
    [_download_image(url, path)] succeeds. *)
Definition network := nat -> string -> string -> bool.

(** Computations on the session. *)
Definition M (A : Type) : Type := session -> A * session.

Definition ret {A : Type} (x : A) : M A := fun s => (x, s).

Definition bind {A B : Type} (c : M A) (k : A -> M B) : M B :=
  fun s => let (x, s') := c s in k x s'.

Declare Scope session_scope.
Delimit Scope session_scope with session.
Notation "x <- c ;; k" := (bind c (fun x => k))
  (at level 61, c at next level, right associativity) : session_scope.
Notation "c ;; k" := (bind c (fun _ => k))
  (at level 61, right associativity) : session_scope.
Local Open Scope session_scope.

(** [self.image_counter += 1] *)
Definition incr_image_counter : M unit :=
  fun s => (tt, {| images := images s;
                   image_counter := image_counter s + 1;
                   downloads := downloads s |}).

(** [self.image_counter] *)
Definition get_image_counter : M nat := fun s => (image_counter s, s).

(** [self.images.append(r)] *)
Definition images_append (r : image_record) : M unit :=
  fun s => (tt, {| images := Py.append (images s) r;
                   image_counter := image_counter s;
                   downloads := downloads s |}).

(** [self.images = []; self.image_counter = 0] *)
Definition reset_image_tracking : M unit :=
  fun s => (tt, {| images := []; image_counter := 0;
                   downloads := downloads s |}).

(** [dir / name], as the string [str] gives, where [dir] is the string of
    a path that [pathlib] has already normalised and that is not the root
    (["out"] for [Path("out/")]), and [name] is a relative name of one
    component, as [images], [cover.png], [image_001.png] and [article.md]
    are. *)
Definition Path_div (dir name : string) : string := dir ++ "/" ++ name.

(** [_get_image_url] *)
Definition _get_image_url (image : image_obj) : string :=
  match img_type image with
  | Some t =>
      if String.eqb t "external" then external_url image
      else if String.eqb t "file" then file_url image
      else ""
  | None => ""
  end.

Definition image_extensions : list string :=
  [".jpg"; ".jpeg"; ".png"; ".gif"; ".webp"; ".svg"].

(** [_get_extension] *)
Definition _get_extension (url : string) : string :=
  let clean_url := Py.split_head "?" url in
  let default :=
    if Py.contains "amazonaws.com" url || Py.contains "notion" url
    then ".png" else ".jpg" in
  if Py.contains "." clean_url then
    let ext := Py.lower (snd (Py.splitext clean_url)) in
    if Py.mem ext image_extensions then ext else default
  else default.

Section Fetcher.

Variable net : network.

(** [_download_image]: the request is recorded, the answer is the
    network's; a failure is caught and reported as [False]. *)
Definition _download_image (url local_path : string) : M bool :=
  fun s => (net (List.length (downloads s)) url local_path,
            {| images := images s;
               image_counter := image_counter s;
               downloads := Py.append (downloads s) (url, local_path) |}).

(** [_image_block_to_markdown] *)
Definition _image_block_to_markdown (image_block : image_obj)
    (images_dir : string) : M string :=
  let url := _get_image_url image_block in
  if negb (Py.truthy url) then ret ""
  else
    incr_image_counter ;;
    counter <- get_image_counter ;;
    let ext := _get_extension url in
    let filename := "image_" ++ Py.format_03d counter ++ ext in
    let local_path := Path_div images_dir filename in
    let image_type :=
      match img_type image_block with
      | Some t => t
      | None => "external"
      end in
    ok <- _download_image url local_path ;;
    if ok then
      images_append {| original_url := url;
                       local_path := local_path;
                       type_ := image_type |} ;;
      let caption := _extract_plain_text (caption image_block) in
      if Py.truthy caption
      then ret ("![" ++ caption ++ "](" ++ local_path ++ ")")
      else ret ("![](" ++ local_path ++ ")")
    else
      let caption := _extract_plain_text (caption image_block) in
      if Py.truthy caption
      then ret ("![" ++ caption ++ "](" ++ url ++ ")")
      else ret ("![](" ++ url ++ ")").

End Fetcher.

(** ** Blocks *)

(** The type tag of a block, [block.get("type")], with the payload
    [block[block_type]] the renderer reads.  Every tag the renderer does
    not know (toggle, video, ...; also a missing tag) is [Unsupported]. *)
Inductive block_kind :=
| Paragraph (rt : rich_text)
| Heading1 (rt : rich_text)
| Heading2 (rt : rich_text)
| Heading3 (rt : rich_text)
| BulletedListItem (rt : rich_text)
| NumberedListItem (rt : rich_text)
| ToDo (checked : bool) (rt : rich_text)
| Quote (rt : rich_text)
| Code (language : string) (rt : rich_text)
| Equation (expr : string)
| Image (image : image_obj)
| Bookmark (url : string) (bookmark_caption : rich_text)
| Callout (emoji : string) (rt : rich_text)
| Divider
| Table
| TableRow (cells : list rich_text)
| Unsupported.

(** A block with the children the API lists under its id. *)
#[local] Unset Elimination Schemes.
Inductive block := Block {
  block_id : string;
  kind : block_kind;
  has_children : bool;    (* block.get("has_children") *)
  children : list block   (* _get_all_blocks(block["id"]) *)
}.
#[local] Set Elimination Schemes.

(** [block_type in ["bulleted_list_item", "numbered_list_item", "to_do"]] *)
Definition is_list_item (k : block_kind) : bool :=
  match k with
  | BulletedListItem _ | NumberedListItem _ | ToDo _ _ => true
  | _ => false
  end.

(** The text of one cell of a table row. *)
Definition cell_text (cell : rich_text) : string :=
  Py.replace_char "010" "<br>"
    (Py.replace_char "|" "\|" (_rich_text_to_markdown cell)).

(** The [for i, row in enumerate(rows)] loop of [_table_to_markdown],
    from index [i] on, with [md_rows] as built so far. *)
Fixpoint table_rows_loop (i : nat) (rows : list block)
    (md_rows : list string) : list string :=
  match rows with
  | [] => md_rows
  | row :: rest =>
      match kind row with
      | TableRow cells =>
          let cell_texts := map cell_text cells in
          let md_rows :=
            Py.append md_rows ("| " ++ Py.join " | " cell_texts ++ " |") in
          let md_rows :=
            if (i =? 0)%nat then
              let separator :=
                "| " ++ Py.join " | " (List.repeat "---" (List.length cells))
                     ++ " |" in
              Py.append md_rows separator
            else md_rows in
          table_rows_loop (S i) rest md_rows
      | _ => table_rows_loop (S i) rest md_rows
      end
  end.

(** [_table_to_markdown] *)
Definition _table_to_markdown (table_block : block) : string :=
  let rows := children table_block in
  match rows with
  | [] => "<!-- Empty table -->"
  | _ => Py.join Py.nl (table_rows_loop 0 rows [])
  end.

(** A page as [pages.retrieve] returns it, with its top-level blocks. *)
Record page := {
  page_id : string;
  prop_title : rich_text;   (* properties.get("title", {}).get("title", []) *)
  prop_Name : rich_text;    (* properties.get("Name", {}).get("title", []) *)
  prop_slug : rich_text;    (* properties.get("slug", {}).get("rich_text", []) *)
  cover : option image_obj; (* page.get("cover") *)
  page_blocks : list block  (* _get_all_blocks(page["id"]) *)
}.

(** The dictionary [_process_page] returns. *)
Record article := {
  title : string;
  slug : string;
  markdown : string;
  markdown_file : string;
  article_images : list image_record;
  cover_image : option string
}.

Section Renderer.

Variable net : network.
Variable images_dir : string.

(** [_block_to_markdown] *)
Definition _block_to_markdown (b : block) (depth : nat) : M string :=
  let indent := Py.repeat "  " depth in
  match kind b with
  | Paragraph rt => ret (_rich_text_to_markdown rt)
  | Heading1 rt => ret ("# " ++ _rich_text_to_markdown rt)
  | Heading2 rt => ret ("## " ++ _rich_text_to_markdown rt)
  | Heading3 rt => ret ("### " ++ _rich_text_to_markdown rt)
  | BulletedListItem rt =>
      ret (indent ++ "- " ++ _rich_text_to_markdown rt)
  | NumberedListItem rt =>
      ret (indent ++ "1. " ++ _rich_text_to_markdown rt)
  | ToDo checked rt =>
      let checked := if checked then "x" else " " in
      ret (indent ++ "- [" ++ checked ++ "] " ++ _rich_text_to_markdown rt)
  | Quote rt => ret ("> " ++ _rich_text_to_markdown rt)
  | Code language rt =>
      ret ("```" ++ language ++ Py.nl ++ _extract_plain_text rt
                 ++ Py.nl ++ "```")
  | Equation expr =>
      if Py.truthy (Py.strip expr)
      then ret ("$$" ++ Py.nl ++ expr ++ Py.nl ++ "$$")
      else ret ""
  | Image image => _image_block_to_markdown net image images_dir
  | Bookmark url cap =>
      let caption := _extract_plain_text cap in
      if Py.truthy caption
      then ret ("[" ++ caption ++ "](" ++ url ++ ")")
      else ret ("[" ++ url ++ "](" ++ url ++ ")")
  | Callout icon rt =>
      let text := _rich_text_to_markdown rt in
      let content := if Py.truthy icon then icon ++ " " ++ text else text in
      ret ("> " ++ content)
  | Divider => ret "---"
  | Table => ret (_table_to_markdown b)
  | TableRow _ => ret ""
  | Unsupported => ret ""
  end.

(** [depth + 1 if block_type in [...] else depth] *)
Definition child_depth (k : block_kind) (depth : nat) : nat :=
  if is_list_item k then depth + 1 else depth.

(** One iteration of the [for block in blocks] loop of
    [_blocks_to_markdown]: the entries it appends to [lines]. *)
Fixpoint block_lines (depth : nat) (b : block) {struct b}
    : M (list string) :=
  fun s =>
    let (md, s1) := _block_to_markdown b depth s in
    let lines := if Py.truthy md then [md] else [] in
    match b with
    | Block _ k hc cs =>
        if hc then
          let (child_lines, s2) :=
            (fix loop (bs : list block) : M (list string) :=
               fun s =>
                 match bs with
                 | [] => ([], s)
                 | c :: r =>
                     let (l1, s') := block_lines (child_depth k depth) c s in
                     let (l2, s'') := loop r s' in
                     ((l1 ++ l2)%list, s'')
                 end) cs s1 in
          let child_md := Py.join (Py.nl ++ Py.nl) child_lines in
          (if Py.truthy child_md then Py.append lines child_md else lines,
           s2)
        else (lines, s1)
    end.

(** The whole loop: [lines] at its end. *)
Fixpoint blocks_lines (depth : nat) (blocks : list block)
    : M (list string) :=
  fun s =>
    match blocks with
    | [] => ([], s)
    | b :: r =>
        let (l1, s') := block_lines depth b s in
        let (l2, s'') := blocks_lines depth r s' in
        ((l1 ++ l2)%list, s'')
    end.

(** [_blocks_to_markdown] *)
Definition _blocks_to_markdown (blocks : list block) (depth : nat)
    : M string :=
  lines <- blocks_lines depth blocks ;;
  ret (Py.join (Py.nl ++ Py.nl) lines).

End Renderer.

Section Assembler.

Variable net : network.

(** The cover step of [_process_page]: [cover_image] after it. *)
Definition fetch_cover (cover : option image_obj) (images_dir : string)
    : M (option string) :=
  match cover with
  | Some cover =>
      let cover_url := _get_image_url cover in
      if Py.truthy cover_url then
        let cover_ext := _get_extension cover_url in
        let cover_path := Path_div images_dir ("cover" ++ cover_ext) in
        ok <- _download_image net cover_url cover_path ;;
        if ok then
          images_append {| original_url := cover_url;
                           local_path := cover_path;
                           type_ := "cover" |} ;;
          ret (Some cover_path)
        else ret None
      else ret None
  | None => ret None
  end.

(** The assembly step of [_process_page]: the final [markdown] from the
    title, the cover path and the rendered body. *)
Definition assemble (title : string) (cover_image : option string)
    (markdown : string) : string :=
  let markdown :=
    if Py.truthy title
    then "# " ++ title ++ Py.nl ++ Py.nl ++ markdown
    else markdown in
  match cover_image with
  | Some cover_path =>
      if Py.truthy cover_path then
        Py.replace_first
          ("# " ++ title ++ Py.nl ++ Py.nl)
          ("# " ++ title ++ Py.nl ++ Py.nl
                ++ "![cover](" ++ cover_path ++ ")" ++ Py.nl ++ Py.nl)
          markdown
      else markdown
  | None => markdown
  end.

(** [_process_page] *)
Definition _process_page (page : page) (output_dir : string) : M article :=
  let output_path := output_dir in (* Path(output_dir), by its string *)
  let images_dir := Path_div output_path "images" in
  reset_image_tracking ;;
  let title := _extract_plain_text (prop_title page) in
  let title :=
    if negb (Py.truthy title) then _extract_plain_text (prop_Name page)
    else title in
  let slug := _extract_plain_text (prop_slug page) in
  cover_image <- fetch_cover (cover page) images_dir ;;
  let blocks := page_blocks page in
  markdown <- _blocks_to_markdown net images_dir blocks 0 ;;
  let markdown := assemble title cover_image markdown in
  let md_filename := (if Py.truthy slug then slug else "article") ++ ".md" in
  let md_path := Path_div output_path md_filename in
  fun s =>
    ({| title := title;
        slug := slug;
        markdown := markdown;
        markdown_file := md_path;
        article_images := images s;
        cover_image := cover_image |}, s).

End Assembler.

(** ** Notions used to state the properties *)

(** The blocks [_blocks_to_markdown] meets, in the order it meets them: a
    block, then, when it has children, its children's subtrees. *)
Fixpoint encounter (b : block) : list block_kind :=
  match b with
  | Block _ k hc cs => k :: (if hc then flat_map encounter cs else [])
  end.

Definition encounters (blocks : list block) : list block_kind :=
  flat_map encounter blocks.

(** The image blocks among them. *)
Definition image_blocks (ks : list block_kind) : list image_obj :=
  flat_map (fun k => match k with Image image => [image] | _ => [] end) ks.

(** The URLs of the image blocks from which a URL can be extracted. *)
Definition extracted_urls (images : list image_obj) : list string :=
  flat_map (fun image =>
              if Py.truthy (_get_image_url image)
              then [_get_image_url image] else []) images.

(** The file an inline image with counter value [n] is written to. *)
Definition image_path (images_dir : string) (n : nat) (url : string)
  : string :=
  Path_div images_dir ("image_" ++ Py.format_03d n ++ _get_extension url).

(** The downloads of [urls] with the counter values [n], [n+1], ... *)
Fixpoint numbered_from (images_dir : string) (n : nat) (urls : list string)
  : list (string * string) :=
  match urls with
  | [] => []
  | u :: r => (u, image_path images_dir n u) :: numbered_from images_dir (S n) r
  end.

(** The downloads and the counter after a run that started in [s] and
    met the image URLs [urls]. *)
Definition numbered_run (images_dir : string) (s s' : session)
    (urls : list string) : Prop :=
  downloads s'
  = (downloads s ++ numbered_from images_dir (image_counter s + 1) urls)%list
  /\ image_counter s' = image_counter s + List.length urls.

(** The download of the cover, when the page has one with a URL. *)
Definition cover_download (cover : option image_obj) (images_dir : string)
  : list (string * string) :=
  match cover with
  | Some c =>
      if Py.truthy (_get_image_url c)
      then [(_get_image_url c,
             Path_div images_dir ("cover" ++ _get_extension (_get_image_url c)))]
      else []
  | None => []
  end.

(** Numbering by encounter position, as the specification words it: the
    image block met in position [n] (counting from 1 among all image
    blocks) is downloaded to the file numbered [n]. *)
Definition numbered_by_encounter (net : network) (images_dir : string)
    (blocks : list block) : Prop :=
  forall (n : nat) (image : image_obj),
    nth_error (image_blocks (encounters blocks)) n = Some image ->
    Py.truthy (_get_image_url image) = true ->
    In (_get_image_url image,
        image_path images_dir (n + 1) (_get_image_url image))
       (downloads (snd (_blocks_to_markdown net images_dir blocks 0
                          {| images := []; image_counter := 0;
                             downloads := [] |}))).

(** The opening and closing marks of a styled span, read from the outside
    inwards and from the inside outwards. *)
Definition opening_marks (a : annotations) (h : option string) : string :=
  (if href_truthy h then "[" else "")
  ++ (if code a then "`" else "")
  ++ (if underline a then "<u>" else "")
  ++ (if strikethrough a then "~~" else "")
  ++ (if italic a then "*" else "")
  ++ (if bold a then "**" else "").

Definition closing_marks (a : annotations) (h : option string) : string :=
  (if bold a then "**" else "")
  ++ (if italic a then "*" else "")
  ++ (if strikethrough a then "~~" else "")
  ++ (if underline a then "</u>" else "")
  ++ (if code a then "`" else "")
  ++ (if href_truthy h then "](" ++ href_text h ++ ")" else "").

(** The composition as the specification words it: bold is the outermost
    wrapper, then italic, strikethrough, underline and inline code, and the
    link is the innermost. *)
Definition wrap_outermost_first (a : annotations) (h : option string)
    (text : string) : string :=
  let text :=
    if href_truthy h then "[" ++ text ++ "](" ++ href_text h ++ ")"
    else text in
  let text := if code a then "`" ++ text ++ "`" else text in
  let text := if underline a then "<u>" ++ text ++ "</u>" else text in
  let text := if strikethrough a then "~~" ++ text ++ "~~" else text in
  let text := if italic a then "*" ++ text ++ "*" else text in
  if bold a then "**" ++ text ++ "**" else text.

(** The remaining path ends in the extension [e], one of the recognised
    ones up to case: the specification's wording. *)
Definition ends_in_image_extension (clean_url e : string) : Prop :=
  (exists stem, clean_url = stem ++ e) /\ In (Py.lower e) image_extensions.

(** The same, where moreover the name before [e], within the last path
    segment, has a character other than a dot: what [os.path.splitext]
    takes for an extension. *)
Definition has_image_extension (clean_url e : string) : Prop :=
  exists stem a c b,
    clean_url = stem ++ e /\ In (Py.lower e) image_extensions /\
    stem = a ++ String c b /\ c <> "."%char /\
    Py.has_char "/" (String c b) = false.

(** An induction principle for blocks that reaches the children. *)
Fixpoint block_ind (P : block -> Prop)
    (step : forall id k hc cs, Forall P cs -> P (Block id k hc cs))
    (b : block) {struct b} : P b :=
  match b with
  | Block id k hc cs =>
      step id k hc cs
        ((fix all (l : list block) : Forall P l :=
            match l with
            | [] => Forall_nil P
            | c :: r => Forall_cons c (block_ind P step c) (all r)
            end) cs)
  end.


(** ** Sample inputs *)

Module Sample.

Definition no_style : annotations :=
  {| bold := false; italic := false; strikethrough := false;
     underline := false; code := false |}.

(** A span of plain text. *)
Definition text (t : string) (a : annotations) (h : option string)
  : rich_text_item :=
  {| rt_type := "text"; plain_text := t; rt_annotations := a;
     href := h; expression := "" |}.

Definition plain (t : string) : rich_text_item := text t no_style None.

Definition bold_italic : annotations :=
  {| bold := true; italic := true; strikethrough := false;
     underline := false; code := false |}.

Definition bold_code : annotations :=
  {| bold := true; italic := false; strikethrough := false;
     underline := false; code := true |}.

(** An equation span that also carries a text, styles and a link. *)
Definition styled_equation : rich_text_item :=
  {| rt_type := "equation"; plain_text := "x^2";
     rt_annotations := bold_italic; href := Some "https://example.com";
     expression := "x^2" |}.

Definition blank_equation : rich_text_item :=
  {| rt_type := "equation"; plain_text := " ";
     rt_annotations := bold_italic; href := Some "https://example.com";
     expression := " " |}.

Definition external_image (u : string) (cap : rich_text) : image_obj :=
  {| img_type := Some "external"; external_url := u; file_url := "";
     caption := cap |}.

(** An image object with no URL to extract. *)
Definition image_without_url : image_obj :=
  {| img_type := Some "external"; external_url := ""; file_url := "";
     caption := [plain "lost"] |}.

Definition leaf (k : block_kind) : block := Block "b" k false [].

Definition row (cells : list rich_text) : block :=
  Block "r" (TableRow cells) false [].

Definition fresh : session :=
  {| images := []; image_counter := 0; downloads := [] |}.

Definition always_up : network := fun _ _ _ => true.
Definition always_down : network := fun _ _ _ => false.

End Sample.

(** The line of a table row with the cells [cells]. *)
Definition row_line (cells : list rich_text) : string :=
  "| " ++ Py.join " | " (map cell_text cells) ++ " |".

(** The separator line with [n] columns. *)
Definition separator_line (n : nat) : string :=
  "| " ++ Py.join " | " (List.repeat "---" n) ++ " |".

(** The lines of the table rows among [rows], with no separator. *)
Definition row_lines (rows : list block) : list string :=
  flat_map (fun row => match kind row with
                       | TableRow cells => [row_line cells]
                       | _ => []
                       end) rows.

Module SampleTables.

(** A table whose first child is not a table row. *)
Definition stray_first_child : block :=
  Block "t" Table true
    [Sample.leaf (Paragraph [Sample.plain "stray"]);
     Sample.row [[Sample.plain "a"]; [Sample.plain "b"]];
     Sample.row [[Sample.plain "c"]; [Sample.plain "d"]]].

(** A table whose second row is longer than the first. *)
Definition ragged : block :=
  Block "t" Table true
    [Sample.row [[Sample.plain "a"]; [Sample.plain "b"]];
     Sample.row [[Sample.plain "c"]; [Sample.plain "d"]; [Sample.plain "e"]]].

End SampleTables.

Module SamplePages.

Definition cover_object : image_obj :=
  Sample.external_image "https://example.com/cover.png" [].

(** A page without a title, with a cover, whose body starts with an empty
    heading. *)
Definition untitled_with_empty_heading : page :=
  {| page_id := "p"; prop_title := []; prop_Name := []; prop_slug := [];
     cover := Some cover_object;
     page_blocks := [Sample.leaf (Heading1 []);
                     Sample.leaf (Paragraph [Sample.plain "x"])] |}.

(** A page with a title and a cover. *)
Definition titled : page :=
  {| page_id := "p"; prop_title := [Sample.plain "Hello"]; prop_Name := [];
     prop_slug := []; cover := Some cover_object;
     page_blocks := [Sample.leaf (Paragraph [Sample.plain "World"])] |}.

End SamplePages.

(** ** Further notions *)

(** A span with a text and nothing else: no equation, no style, no link. *)
Definition is_plain_span (item : rich_text_item) : bool :=
  negb (String.eqb (rt_type item) "equation")
  && negb (bold (rt_annotations item))
  && negb (italic (rt_annotations item))
  && negb (strikethrough (rt_annotations item))
  && negb (underline (rt_annotations item))
  && negb (code (rt_annotations item))
  && negb (href_truthy (href item)).

(** What a ledger entry records of a download. *)
Definition ledger_key (r : image_record) : string * string :=
  (original_url r, local_path r).

(** The downloads among [requests] that the network lets succeed, when
    the first of them is the call number [n]. *)
Fixpoint successful (net : network) (n : nat)
    (requests : list (string * string)) : list (string * string) :=
  match requests with
  | [] => []
  | (u, p) :: r =>
      ((if net n u p then [(u, p)] else []) ++ successful net (S n) r)%list
  end.

(** [int(s)] for a string of decimal digits. *)
Definition parse_counter (s : string) : option nat :=
  option_map Nat.of_uint (NilEmpty.uint_of_string s).

(** The downloads [requests] made from [s] to [s'] and the ledger entries
    added on the way: one for each download that succeeded, in order. *)
Definition ledger_run (net : network) (s s' : session)
    (requests : list (string * string)) : Prop :=
  downloads s' = (downloads s ++ requests)%list
  /\ map ledger_key (images s')
     = (map ledger_key (images s)
          ++ successful net (List.length (downloads s)) requests)%list.

(** [c.isdigit()] on U+0000..U+00FF restricted to the ten ASCII digits,
    and the strings made of such digits. *)
Definition is_digit (c : ascii) : bool :=
  let n := nat_of_ascii c in ((48 <=? n) && (n <=? 57))%nat.

Fixpoint all_digits (s : string) : bool :=
  match s with
  | EmptyString => true
  | String c r => is_digit c && all_digits r
  end.

(** [s.count(c)] for a single character [c]. *)
Fixpoint count_char (c : ascii) (s : string) : nat :=
  match s with
  | EmptyString => 0
  | String x r => (if Ascii.eqb x c then 1 else 0) + count_char c r
  end.

(** Whether a block is a table row. *)
Definition is_table_row (b : block) : bool :=
  match kind b with
  | TableRow _ => true
  | _ => false
  end.

(** The kinds of block that render as the empty string and leave the
    session alone: unsupported blocks, table rows outside the table
    renderer, blank equations and images without a URL. *)
Definition renders_nothing (k : block_kind) : bool :=
  match k with
  | Unsupported | TableRow _ => true
  | Equation expr => Py.all_space expr
  | Image image => negb (Py.truthy (_get_image_url image))
  | _ => false
  end.

(** The children the renderer visits. *)
Definition visited_children (b : block) : list block :=
  if has_children b then children b else [].

(** ** The Notion client *)

(** One answer of [client.blocks.children.list]. *)
Record children_page := {
  results : list block;        (* response["results"] *)
  has_more : bool;             (* response.get("has_more") *)
  next_cursor : option string  (* response.get("next_cursor") *)
}.

(** [client.blocks.children.list(block_id=..., start_cursor=cursor,
    page_size=100)] for one block id, as a function of the cursor. *)
Definition children_list := option string -> children_page.

(** The [while True] loop of [_get_all_blocks], from [blocks] and
    [cursor]; [fuel] bounds the number of requests and [None] says that
    the loop has not ended within it. *)
Fixpoint get_all_blocks_loop (fuel : nat) (list_children : children_list)
    (blocks : list block) (cursor : option string) : option (list block) :=
  match fuel with
  | O => None
  | S fuel' =>
      let response := list_children cursor in
      let blocks := (blocks ++ results response)%list in
      if negb (has_more response) then Some blocks
      else get_all_blocks_loop fuel' list_children blocks
             (next_cursor response)
  end.

(** [_get_all_blocks] *)
Definition _get_all_blocks (fuel : nat) (list_children : children_list)
  : option (list block) :=
  get_all_blocks_loop fuel list_children [] None.

(** The pages the API serves from a cursor on, up to the first one that
    has no more. *)
Inductive served (list_children : children_list)
  : option string -> list children_page -> Prop :=
| served_last (cursor : option string) :
    has_more (list_children cursor) = false ->
    served list_children cursor [list_children cursor]
| served_more (cursor : option string) (rest : list children_page) :
    has_more (list_children cursor) = true ->
    served list_children (next_cursor (list_children cursor)) rest ->
    served list_children cursor (list_children cursor :: rest).

(** The exceptions the fetcher meets. *)
Inductive exception :=
| ValueError (message : string)
| APIResponseError (message : string).

(** The two calls of the client that return pages. *)
Record client := {
  (* client.pages.retrieve(page_id=page_id) *)
  pages_retrieve : string -> exception + page;
  (* client.databases.query(database_id=..., filter=...)["results"], where
     the filter asks for the slug and for a status other than draft *)
  databases_query : string -> string -> exception + list page
}.

Section Fetch.

Variable net : network.
Variable notion : client.

(** [fetch_by_page_id] *)
Definition fetch_by_page_id (page_id output_dir : string) (s : session)
  : exception + article * session :=
  let page_id := Py.replace_char "-" "" page_id in
  match pages_retrieve notion page_id with
  | inl e => inl e
  | inr page => inr (_process_page net page output_dir s)
  end.

(** [fetch_by_slug] *)
Definition fetch_by_slug (database_id : option string)
    (slug output_dir : string) (s : session)
  : exception + article * session :=
  match database_id with
  | Some db =>
      if Py.truthy db then
        match databases_query notion db slug with
        | inl e => inl e
        | inr [] =>
            inl (ValueError ("Article with slug '" ++ slug ++ "' not found"))
        | inr (page :: _) => inr (_process_page net page output_dir s)
        end
      else inl (ValueError "DATABASE_ID is required for slug lookup")
  | None => inl (ValueError "DATABASE_ID is required for slug lookup")
  end.

End Fetch.

(** ** Environment files *)

Module Dotenv.

(** [os.environ] *)
Definition environ := string -> option string.

(** The double quote and the single quote. *)
Definition dquote : string := String "034"%char EmptyString.
Definition squote : string := "'".

(** [s.startswith(prefix)] *)
Definition startswith (prefix s : string) : bool := String.prefix prefix s.

(** [s.endswith(suffix)] *)
Definition endswith (suffix s : string) : bool :=
  (String.length suffix <=? String.length s)%nat
  && String.eqb (Py.skip (String.length s - String.length suffix) s) suffix.

(** [s[1:-1]] *)
Definition strip_ends (s : string) : string :=
  substring 1 (String.length s - 2) s.

(** The third component of [s.partition(c)]: what follows the first
    [c]. *)
Fixpoint after_first (c : ascii) (s : string) : string :=
  match s with
  | EmptyString => EmptyString
  | String x r => if Ascii.eqb x c then r else after_first c r
  end.

(** The reading of one line, common to [load_dotenv] and to the
    [--env-file] loop of [main]: the key and the value it assigns, if
    any. *)
Definition parse_line (line : string) : option (string * string) :=
  let line := Py.strip line in
  if negb (Py.truthy line) || startswith "#" line then None
  else if Py.contains "=" line then
    let key := Py.split_head "=" line in
    let value := after_first "=" line in
    let key := Py.strip key in
    let value := Py.strip value in
    let value :=
      if (startswith dquote value && endswith dquote value)
         || (startswith squote value && endswith squote value)
      then strip_ends value else value in
    Some (key, value)
  else None.

(** [key in os.environ] *)
Definition is_set (env : environ) (key : string) : bool :=
  match env key with
  | Some _ => true
  | None => false
  end.

(** Whether [os.environ[key] = value] goes through: it raises
    [ValueError] on an empty name, on a name with an equals sign and on a
    null character in the name or in the value. *)
Definition putenv_ok (key value : string) : bool :=
  Py.truthy key && negb (Py.has_char "=" key)
  && negb (Py.has_char "000" key) && negb (Py.has_char "000" value).

(** [os.environ[key] = value], when it goes through. *)
Definition setenv (key value : string) (env : environ) : environ :=
  fun k => if String.eqb k key then Some value else env k.

(** The [for line in f] loop of [load_dotenv]; the flag tells whether it
    ended without an exception. *)
Fixpoint dotenv_lines (lines : list string) (env : environ)
  : environ * bool :=
  match lines with
  | [] => (env, true)
  | line :: rest =>
      match parse_line line with
      | Some (key, value) =>
          if Py.truthy key && negb (is_set env key) then
            if putenv_ok key value
            then dotenv_lines rest (setenv key value env)
            else (env, false)
          else dotenv_lines rest env
      | None => dotenv_lines rest env
      end
  end.

(** A candidate path of [load_dotenv]: no such file, a file that cannot
    be opened, a file whose reading breaks off with an error after the
    lines [lines], or a file read to its end, with its lines. *)
Inductive env_file :=
| Missing
| Unreadable
| Truncated (lines : list string)
| Readable (lines : list string).

(** [load_dotenv], on the candidate paths in the order it tries them: the
    environment after it and the value it returns. *)
Fixpoint load_dotenv (env_paths : list env_file) (env : environ)
  : environ * bool :=
  match env_paths with
  | [] => (env, false)
  | Missing :: rest => load_dotenv rest env
  | Unreadable :: rest => load_dotenv rest env
  | Truncated lines :: rest =>
      load_dotenv rest (fst (dotenv_lines lines env))
  | Readable lines :: rest =>
      let (env', ok) := dotenv_lines lines env in
      if ok then (env', true) else load_dotenv rest env'
  end.

(** The [for line in f] loop of the [--env-file] option of [main], which
    overrides what is set; the flag tells whether it ended without an
    exception. *)
Fixpoint env_file_lines (lines : list string) (env : environ)
  : environ * bool :=
  match lines with
  | [] => (env, true)
  | line :: rest =>
      match parse_line line with
      | Some (key, value) =>
          if putenv_ok key value
          then env_file_lines rest (setenv key value env)
          else (env, false)
      | None => env_file_lines rest env
      end
  end.

(** Truth value of an optional string: [None] and [""] are false. *)
Definition opt_truthy (a : option string) : bool :=
  match a with
  | Some x => Py.truthy x
  | None => false
  end.

(** [a or b] on optional strings. *)
Definition or_else (a b : option string) : option string :=
  if opt_truthy a then a else b.

(** The arguments of the command line that [main] reads before it builds
    the fetcher. *)
Record arguments := {
  notion_token : option string;   (* args.notion_token *)
  database_id : option string;    (* args.database_id *)
  env_file_arg : option env_file; (* args.env_file, when it is not empty,
                                     and the file it names *)
  slug_arg : option string        (* args.slug *)
}.

(** The four ways in which [main] exits with status 1 before it builds
    the fetcher. *)
Inductive failure :=
| EnvFileNotFound
| EnvFileError
| TokenRequired
| DatabaseIdRequired.

(** How [main] ends before it builds the fetcher, or the token and the
    database id it builds it with. *)
Inductive startup :=
| Exit1 (reason : failure)
| Credentials (token : string) (database : option string).

(** The [--env-file] step of [main]. *)
Definition load_env_file (file : option env_file) (env : environ)
  : failure + environ :=
  match file with
  | None => inr env
  | Some Missing => inl EnvFileNotFound
  | Some Unreadable => inl EnvFileError
  | Some (Truncated _) => inl EnvFileError
  | Some (Readable lines) =>
      let (env', ok) := env_file_lines lines env in
      if ok then inr env' else inl EnvFileError
  end.

(** [main], from the parsed arguments to the credentials. *)
Definition main_credentials (args : arguments) (env : environ) : startup :=
  match load_env_file (env_file_arg args) env with
  | inl reason => Exit1 reason
  | inr env =>
      let token := or_else (notion_token args) (env "NOTION_TOKEN") in
      if negb (opt_truthy token) then Exit1 TokenRequired
      else
        let database := or_else (database_id args) (env "DATABASE_ID") in
        if opt_truthy (slug_arg args) && negb (opt_truthy database)
        then Exit1 DatabaseIdRequired
        else
          Credentials (match token with Some t => t | None => "" end)
            database
  end.

(** The value the first line of [lines] that assigns [key] gives it. *)
Fixpoint first_assignment (lines : list string) (key : string)
  : option string :=
  match lines with
  | [] => None
  | line :: rest =>
      match parse_line line with
      | Some (k, v) =>
          if String.eqb k key then Some v else first_assignment rest key
      | None => first_assignment rest key
      end
  end.

(** The value the last line of [lines] that assigns [key] gives it. *)
Fixpoint last_assignment (lines : list string) (key : string)
  : option string :=
  match lines with
  | [] => None
  | line :: rest =>
      match last_assignment rest key with
      | Some v => Some v
      | None =>
          match parse_line line with
          | Some (k, v) => if String.eqb k key then Some v else None
          | None => None
          end
      end
  end.

End Dotenv.

(** Two sessions that the converter cannot tell apart: the same ledger,
    the same counter and as many downloads made. *)
Definition same_view (s1 s2 : session) : Prop :=
  images s1 = images s2
  /\ image_counter s1 = image_counter s2
  /\ List.length (downloads s1) = List.length (downloads s2).
(** * Properties *)

(** ** Strings *)

Module PyFacts.

Lemma app_nil_r (s : string) : s ++ "" = s.
Proof. induction s as [|c s IH]; simpl; [reflexivity | now rewrite IH]. Qed.

Lemma app_assoc (a b c : string) : (a ++ b) ++ c = a ++ (b ++ c).
Proof. induction a as [|x a IH]; simpl; [reflexivity | now rewrite IH]. Qed.

Lemma length_app (a b : string) :
  String.length (a ++ b) = String.length a + String.length b.
Proof. induction a as [|x a IH]; simpl; [reflexivity | now rewrite IH]. Qed.

Lemma prefix_app (a b : string) : String.prefix a (a ++ b) = true.
Proof.
  induction a as [|c a IH]; simpl.
  - now destruct b.
  - destruct (ascii_dec c c) as [_|Hne]; [exact IH | contradiction].
Qed.

Lemma skip_app (a b : string) : Py.skip (String.length a) (a ++ b) = b.
Proof. induction a as [|c a IH]; simpl; [now destruct b | exact IH]. Qed.

Lemma truthy_true (s : string) : Py.truthy s = true <-> s <> "".
Proof. destruct s; simpl; split; congruence. Qed.

Lemma truthy_false (s : string) : Py.truthy s = false <-> s = "".
Proof. destruct s; simpl; split; congruence. Qed.

Lemma join_empty_cons (x : string) (l : list string) :
  Py.join "" (x :: l) = x ++ Py.join "" l.
Proof.
  unfold Py.join. destruct l as [|y l]; simpl.
  - now rewrite app_nil_r.
  - reflexivity.
Qed.

Lemma join_empty_app (l1 l2 : list string) :
  Py.join "" (l1 ++ l2)%list = Py.join "" l1 ++ Py.join "" l2.
Proof.
  induction l1 as [|x l1 IH].
  - reflexivity.
  - rewrite <- List.app_comm_cons, !join_empty_cons, IH.
    now rewrite app_assoc.
Qed.

(** Stripping leaves nothing exactly when every character is white
    space. *)
Lemma lstrip_all_space (s : string) :
  Py.all_space s = true -> Py.lstrip s = "".
Proof.
  induction s as [|c s IH]; simpl; [reflexivity|].
  destruct (Py.isspace c); simpl; [exact IH | discriminate].
Qed.

Lemma rstrip_nonempty (c : ascii) (s : string) :
  Py.isspace c = false -> Py.rstrip (String c s) <> "".
Proof.
  intros Hc. simpl. destruct (Py.rstrip s); [rewrite Hc|]; discriminate.
Qed.

Lemma lstrip_not_all_space (s : string) :
  Py.all_space s = false ->
  exists c r, Py.lstrip s = String c r /\ Py.isspace c = false.
Proof.
  induction s as [|c s IH]; simpl; [discriminate|].
  destruct (Py.isspace c) eqn:Hc; simpl.
  - exact IH.
  - intros _. now exists c, s.
Qed.

Lemma strip_truthy (s : string) :
  Py.truthy (Py.strip s) = negb (Py.all_space s).
Proof.
  unfold Py.strip. destruct (Py.all_space s) eqn:Hs; simpl.
  - now rewrite lstrip_all_space.
  - destruct (lstrip_not_all_space s Hs) as (c & r & -> & Hc).
    apply truthy_true. now apply rstrip_nonempty.
Qed.

End PyFacts.

(** ** The inline renderer *)

Section InlineRenderer.

Lemma rich_text_step_app (parts : list string) (item : rich_text_item) :
  rich_text_step parts item = (parts ++ rich_text_step [] item)%list.
Proof.
  unfold rich_text_step, Py.append.
  repeat match goal with
         | |- context [if ?b then _ else _] => destruct b
         end; simpl; now rewrite ?List.app_nil_r.
Qed.

Lemma fold_rich_text_step (rt : rich_text) (parts : list string) :
  fold_left rich_text_step rt parts
  = (parts ++ fold_left rich_text_step rt [])%list.
Proof.
  revert parts. induction rt as [|item rt IH]; intros parts; simpl.
  - now rewrite List.app_nil_r.
  - rewrite IH, (IH (rich_text_step [] item)), (rich_text_step_app parts).
    now rewrite List.app_assoc.
Qed.

(** The parts of a concatenation are the parts of the first sequence
    followed by the parts of the second. *)
Lemma parts_app (a b : rich_text) :
  fold_left rich_text_step (a ++ b)%list []
  = (fold_left rich_text_step a [] ++ fold_left rich_text_step b [])%list.
Proof. now rewrite fold_left_app, fold_rich_text_step. Qed.

(** C8: inline rendering is a monoid homomorphism: the empty sequence
    renders as the empty string, and a concatenation of two span sequences
    renders as the concatenation of their renderings, with nothing in
    between. *)
Theorem rich_text_to_markdown_app :
  _rich_text_to_markdown [] = ""
  /\ forall a b : rich_text,
      _rich_text_to_markdown (a ++ b)%list
      = _rich_text_to_markdown a ++ _rich_text_to_markdown b.
Proof.
  split.
  - reflexivity.
  - intros a b. unfold _rich_text_to_markdown.
    rewrite parts_app. apply PyFacts.join_empty_app.
Qed.

(** C7: an equation span renders as its expression between dollar signs
    when the expression has a character other than white space, whatever
    its text, annotations and link are, and as the empty string when the
    expression is blank. *)
Theorem equation_span_rendering (item : rich_text_item) :
  rt_type item = "equation" ->
  (Py.all_space (expression item) = false ->
   _rich_text_to_markdown [item] = "$" ++ expression item ++ "$")
  /\ (Py.all_space (expression item) = true ->
      _rich_text_to_markdown [item] = ""
      /\ forall a b : rich_text,
          _rich_text_to_markdown (a ++ item :: b)%list
          = _rich_text_to_markdown (a ++ b)%list).
Proof.
  intros Hty.
  assert (Hstep : rich_text_step [] item
                  = if negb (Py.all_space (expression item))
                    then ["$" ++ expression item ++ "$"] else []).
  { unfold rich_text_step. rewrite Hty. simpl.
    rewrite PyFacts.strip_truthy. reflexivity. }
  split; intros Hsp.
  - unfold _rich_text_to_markdown. simpl. rewrite Hstep, Hsp. reflexivity.
  - assert (H1 : _rich_text_to_markdown [item] = "").
    { unfold _rich_text_to_markdown. simpl. rewrite Hstep, Hsp.
      reflexivity. }
    split; [exact H1|].
    intros a b. unfold _rich_text_to_markdown in *.
    change (item :: b) with ([item] ++ b)%list.
    rewrite !parts_app, !PyFacts.join_empty_app, H1. reflexivity.
Qed.

End InlineRenderer.

Section SpanStyles.

(** C2, as the code has it: a plain span with a non-empty text renders as
    its opening marks, its text and its closing marks, where the marks
    nest with bold innermost, then italic, strikethrough, underline and
    inline code, and the link outermost; each pair of marks is there only
    when its flag is set.  A span that is bold and italic and nothing
    else renders as its text between three asterisks. *)
Theorem styled_span_rendering (item : rich_text_item) :
  rt_type item <> "equation" ->
  plain_text item <> "" ->
  _rich_text_to_markdown [item]
  = opening_marks (rt_annotations item) (href item)
      ++ plain_text item
      ++ closing_marks (rt_annotations item) (href item)
  /\ (rt_annotations item = Sample.bold_italic ->
      href_truthy (href item) = false ->
      _rich_text_to_markdown [item] = "***" ++ plain_text item ++ "***").
Proof.
  intros Hty Htxt.
  apply String.eqb_neq in Hty. apply PyFacts.truthy_true in Htxt.
  assert (Hrender :
    _rich_text_to_markdown [item]
    = opening_marks (rt_annotations item) (href item)
        ++ plain_text item
        ++ closing_marks (rt_annotations item) (href item)).
  { unfold _rich_text_to_markdown, rich_text_step at 1. simpl fold_left.
    unfold rich_text_step. rewrite Hty, Htxt. simpl negb. cbv iota.
    unfold opening_marks, closing_marks, Py.append, Py.join.
    destruct (rt_annotations item) as [b i s u c]; simpl.
    destruct (href_truthy (href item)), b, i, s, u, c; simpl;
      rewrite ?PyFacts.app_assoc; simpl; rewrite ?PyFacts.app_nil_r;
      reflexivity. }
  split; [exact Hrender|].
  intros Ha Hh. rewrite Hrender, Ha. unfold opening_marks, closing_marks.
  rewrite Hh. reflexivity.
Qed.

(** The theorem at a bold and italic span. *)
Lemma styled_span_rendering_witness :
  rt_type (Sample.text "text" Sample.bold_italic None) <> "equation"
  /\ plain_text (Sample.text "text" Sample.bold_italic None) <> ""
  /\ _rich_text_to_markdown [Sample.text "text" Sample.bold_italic None]
     = "***text***".
Proof.
  assert (H1 : rt_type (Sample.text "text" Sample.bold_italic None)
               <> "equation") by (simpl; discriminate).
  assert (H2 : plain_text (Sample.text "text" Sample.bold_italic None)
               <> "") by (simpl; discriminate).
  split; [exact H1 | split; [exact H2 |]].
  exact (proj2 (styled_span_rendering _ H1 H2) eq_refl eq_refl).
Defined.

(** C2, as worded: with bold outermost and the link innermost a bold
    inline-code span would put the asterisks outside the backquotes; the
    code puts them inside. *)
Lemma styled_span_not_outermost_first :
  _rich_text_to_markdown [Sample.text "t" Sample.bold_code None] = "`**t**`"
  /\ wrap_outermost_first Sample.bold_code None "t" = "**`t`**"
  /\ _rich_text_to_markdown [Sample.text "t" Sample.bold_code None]
     <> wrap_outermost_first Sample.bold_code None "t".
Proof. repeat split; try reflexivity. vm_compute. discriminate. Qed.

(** The theorem [equation_span_rendering] at an equation span that
    carries styles and a link. *)
Lemma equation_span_rendering_witness :
  rt_type Sample.styled_equation = "equation"
  /\ _rich_text_to_markdown [Sample.styled_equation] = "$x^2$"
  /\ _rich_text_to_markdown [Sample.blank_equation] = "".
Proof.
  split; [reflexivity | split].
  - exact (proj1 (equation_span_rendering Sample.styled_equation eq_refl)
             eq_refl).
  - exact (proj1 (proj2 (equation_span_rendering Sample.blank_equation
                           eq_refl) eq_refl)).
Defined.

End SpanStyles.

(** ** Image blocks *)

Section ImageBlocks.

Variable net : network.
Variable images_dir : string.

(** No URL is extracted exactly when the object is neither an external
    image with a URL nor a file with a URL. *)
Lemma get_image_url_empty (image : image_obj) :
  _get_image_url image = "" <->
  (img_type image = Some "external" -> external_url image = "")
  /\ (img_type image = Some "file" -> file_url image = "").
Proof.
  unfold _get_image_url. destruct (img_type image) as [t|].
  - destruct (String.eqb_spec t "external") as [->|Hne].
    + split; [intros H; split; [auto | discriminate] | intros [H _]; auto].
    + destruct (String.eqb_spec t "file") as [->|Hnf].
      * split; [intros H; split; [discriminate | auto] | intros [_ H]; auto].
      * split; [|reflexivity]. intros _.
        split; intros H; injection H; contradiction.
  - split; [|reflexivity]. intros _. split; discriminate.
Qed.

(** What [_image_block_to_markdown] does on an image with a URL: the
    counter moves to the next value, the download to the file numbered by
    it is requested, and the outcome decides the rest. *)
Lemma image_block_with_url (image : image_obj) (s : session) :
  _get_image_url image <> "" ->
  let url := _get_image_url image in
  let path := image_path images_dir (image_counter s + 1) url in
  let cap := _extract_plain_text (caption image) in
  _image_block_to_markdown net image images_dir s
  = if net (List.length (downloads s)) url path
    then ("![" ++ cap ++ "](" ++ path ++ ")",
          {| images :=
               Py.append (images s)
                 {| original_url := url; local_path := path;
                    type_ := match img_type image with
                             | Some t => t
                             | None => "external"
                             end |};
             image_counter := image_counter s + 1;
             downloads := Py.append (downloads s) (url, path) |})
    else ("![" ++ cap ++ "](" ++ url ++ ")",
          {| images := images s;
             image_counter := image_counter s + 1;
             downloads := Py.append (downloads s) (url, path) |}).
Proof.
  intros Hurl. cbv zeta.
  apply PyFacts.truthy_true in Hurl.
  unfold _image_block_to_markdown. rewrite Hurl.
  unfold bind, incr_image_counter, get_image_counter, _download_image,
    images_append, ret, image_path.
  cbn [negb image_counter images downloads]. cbv beta iota.
  cbn [image_counter images downloads].
  destruct (net _ _ _); cbn [image_counter images downloads];
    destruct (_extract_plain_text (caption image)); reflexivity.
Qed.

(** On an image without a URL the method returns at once. *)
Lemma image_block_without_url (image : image_obj) (s : session) :
  _get_image_url image = "" ->
  _image_block_to_markdown net image images_dir s = ("", s).
Proof.
  intros Hurl. unfold _image_block_to_markdown. now rewrite Hurl.
Qed.

(** The lines of a block without children are its own rendering, when it
    is not empty. *)
Lemma block_lines_leaf (depth : nat) (id : string) (k : block_kind)
    (cs : list block) (s : session) :
  block_lines net images_dir depth (Block id k false cs) s
  = let (md, s1) :=
      _block_to_markdown net images_dir (Block id k false cs) depth s in
    (if Py.truthy md then [md] else [], s1).
Proof.
  simpl. destruct (_block_to_markdown _ _ _ _ _). reflexivity.
Qed.

(** C3: when the download of an image block fails, the block renders as
    an image whose target is the original URL and whose alternative text
    is the caption (empty when there is none), the ledger is as it was,
    and the renderer goes on with the blocks that follow. *)
Theorem failed_download_falls_back (image : image_obj) (s : session) :
  _get_image_url image <> "" ->
  net (List.length (downloads s)) (_get_image_url image)
      (image_path images_dir (image_counter s + 1) (_get_image_url image))
  = false ->
  let url := _get_image_url image in
  let cap := _extract_plain_text (caption image) in
  let md := "![" ++ cap ++ "](" ++ url ++ ")" in
  let s' := snd (_image_block_to_markdown net image images_dir s) in
  fst (_image_block_to_markdown net image images_dir s) = md
  /\ (cap = "" -> md = "![](" ++ url ++ ")")
  /\ images s' = images s
  /\ forall (id : string) (cs rest : list block) (depth : nat),
      blocks_lines net images_dir depth
        (Block id (Image image) false cs :: rest) s
      = (md :: fst (blocks_lines net images_dir depth rest s'),
         snd (blocks_lines net images_dir depth rest s')).
Proof.
  intros Hurl Hnet url cap md s'.
  pose proof (image_block_with_url image s Hurl) as Himg.
  cbv zeta in Himg. rewrite Hnet in Himg.
  fold url in Himg. fold cap in Himg. fold md in Himg.
  subst s'. rewrite Himg. simpl fst. simpl snd.
  repeat split; try reflexivity.
  - intros ->. reflexivity.
  - intros id cs rest depth.
    cbn [blocks_lines]. rewrite block_lines_leaf.
    unfold _block_to_markdown. cbn [kind]. rewrite Himg.
    change (Py.truthy md) with true. cbv iota.
    destruct (blocks_lines net images_dir depth rest _). reflexivity.
Qed.

(** C10: an image block from which no URL is extracted renders as the
    empty string and leaves the counter, the downloads and the ledger as
    they were; the tree renderer passes over it, so that the image block
    that follows takes the number this one would have had. *)
Theorem image_without_url_is_skipped (image : image_obj) (s : session) :
  _get_image_url image = "" ->
  _image_block_to_markdown net image images_dir s = ("", s)
  /\ (forall (id : string) (cs rest : list block) (depth : nat),
       blocks_lines net images_dir depth
         (Block id (Image image) false cs :: rest) s
       = blocks_lines net images_dir depth rest s)
  /\ (forall (id id2 : string) (cs cs2 : list block) (depth : nat)
             (next : image_obj),
       _get_image_url next <> "" ->
       downloads (snd (blocks_lines net images_dir depth
                         [Block id (Image image) false cs;
                          Block id2 (Image next) false cs2] s))
       = (downloads s
            ++ [(_get_image_url next,
                 image_path images_dir (image_counter s + 1)
                   (_get_image_url next))])%list).
Proof.
  intros Hurl.
  pose proof (image_block_without_url image s Hurl) as Himg.
  assert (Hskip : forall id cs rest depth,
             blocks_lines net images_dir depth
               (Block id (Image image) false cs :: rest) s
             = blocks_lines net images_dir depth rest s).
  { intros id cs rest depth. cbn [blocks_lines]. rewrite block_lines_leaf.
    unfold _block_to_markdown. cbn [kind]. rewrite Himg. simpl.
    destruct (blocks_lines net images_dir depth rest s). reflexivity. }
  split; [exact Himg | split; [exact Hskip |]].
  intros id id2 cs cs2 depth next Hnext.
  rewrite Hskip. cbn [blocks_lines]. rewrite block_lines_leaf.
  unfold _block_to_markdown. cbn [kind].
  rewrite (image_block_with_url next s Hnext). cbv zeta.
  destruct (net _ _ _); simpl; reflexivity.
Qed.

End ImageBlocks.

(** The theorem [failed_download_falls_back] at an image with a caption,
    on a network that is down. *)
Lemma failed_download_falls_back_witness :
  let image := Sample.external_image "https://example.com/a.png"
                 [Sample.plain "A"] in
  _get_image_url image <> ""
  /\ Sample.always_down (List.length (downloads Sample.fresh))
       (_get_image_url image)
       (image_path "out/images" (image_counter Sample.fresh + 1)
          (_get_image_url image)) = false
  /\ fst (_image_block_to_markdown Sample.always_down image "out/images"
            Sample.fresh)
     = "![A](https://example.com/a.png)"
  /\ images (snd (_image_block_to_markdown Sample.always_down image
                    "out/images" Sample.fresh)) = [].
Proof.
  intros image.
  assert (H1 : _get_image_url image <> "") by (vm_compute; discriminate).
  assert (H2 : Sample.always_down (List.length (downloads Sample.fresh))
                 (_get_image_url image)
                 (image_path "out/images" (image_counter Sample.fresh + 1)
                    (_get_image_url image)) = false) by reflexivity.
  split; [exact H1 | split; [exact H2 |]].
  pose proof (failed_download_falls_back Sample.always_down "out/images"
                image Sample.fresh H1 H2) as H.
  split; [exact (proj1 H) | exact (proj1 (proj2 (proj2 H)))].
Defined.

(** The theorem [image_without_url_is_skipped] at an image object whose
    external URL is empty. *)
Lemma image_without_url_is_skipped_witness :
  _get_image_url Sample.image_without_url = ""
  /\ _image_block_to_markdown Sample.always_up Sample.image_without_url
       "out/images" Sample.fresh
     = ("", Sample.fresh).
Proof.
  split; [reflexivity|].
  exact (proj1 (image_without_url_is_skipped Sample.always_up "out/images"
                  Sample.image_without_url Sample.fresh eq_refl)).
Defined.

(** ** The tree renderer *)

Section TreeRenderer.

Variable net : network.
Variable images_dir : string.

(** The recursion equation of the loop body: the lines of a block are
    its own rendering and, when it has children, the rendering of its
    children at their depth, each kept when it is not empty. *)
Lemma block_lines_unfold (depth : nat) (id : string) (k : block_kind)
    (hc : bool) (cs : list block) (s : session) :
  block_lines net images_dir depth (Block id k hc cs) s
  = let (md, s1) :=
      _block_to_markdown net images_dir (Block id k hc cs) depth s in
    let lines := if Py.truthy md then [md] else [] in
    if hc then
      let (child_md, s2) :=
        _blocks_to_markdown net images_dir cs (child_depth k depth) s1 in
      (if Py.truthy child_md then Py.append lines child_md else lines, s2)
    else (lines, s1).
Proof.
  cbn [block_lines].
  destruct (_block_to_markdown _ _ _ _ _) as [md s1].
  destruct hc; [|reflexivity].
  unfold _blocks_to_markdown, bind, ret.
  match goal with
  | |- context [?f cs s1] =>
      is_fix f;
      assert (Hloop : forall bs s0,
                 f bs s0
                 = blocks_lines net images_dir (child_depth k depth) bs s0)
  end.
  { induction bs as [|c r IH]; intros s0; [reflexivity|].
    simpl. destruct (block_lines _ _ _ c s0) as [l1 s'].
    rewrite IH. reflexivity. }
  rewrite Hloop.
  destruct (blocks_lines _ _ _ _ _). reflexivity.
Qed.

Lemma blocks_lines_cons (depth : nat) (b : block) (r : list block)
    (s : session) :
  blocks_lines net images_dir depth (b :: r) s
  = let (l1, s') := block_lines net images_dir depth b s in
    let (l2, s'') := blocks_lines net images_dir depth r s' in
    ((l1 ++ l2)%list, s'').
Proof. reflexivity. Qed.

(** A list item at depth [d] is its rendering at depth 0 behind the
    indentation; the rendering of any other block does not depend on the
    depth. *)
Lemma block_to_markdown_depth (b : block) (depth : nat) (s : session) :
  _block_to_markdown net images_dir b depth s
  = if is_list_item (kind b)
    then (Py.repeat "  " depth
            ++ fst (_block_to_markdown net images_dir b 0 s), s)
    else _block_to_markdown net images_dir b 0 s.
Proof.
  unfold _block_to_markdown. destruct (kind b); try reflexivity.
Qed.

(** C4: the children of a block are rendered one level deeper exactly
    when the block is a bulleted item, a numbered item or a to-do, and at
    the same depth otherwise; the indentation, two spaces per level, is
    put before the marker of these three kinds of block and before
    nothing else. *)
Theorem depth_and_indentation (b : block) (depth : nat) (s : session) :
  let k := kind b in
  let self := _block_to_markdown net images_dir b depth s in
  let deeper := if is_list_item k then depth + 1 else depth in
  let sub :=
    _blocks_to_markdown net images_dir (children b) deeper (snd self) in
  (is_list_item k = true <->
   exists rt, k = BulletedListItem rt \/ k = NumberedListItem rt
              \/ exists checked, k = ToDo checked rt)
  /\ (deeper = depth + 1 <-> is_list_item k = true)
  /\ (has_children b = true ->
      block_lines net images_dir depth b s
      = (filter Py.truthy [fst self; fst sub], snd sub))
  /\ (forall rt, k = BulletedListItem rt ->
       self = (Py.repeat "  " depth ++ "- " ++ _rich_text_to_markdown rt, s))
  /\ (forall rt, k = NumberedListItem rt ->
       self = (Py.repeat "  " depth ++ "1. " ++ _rich_text_to_markdown rt, s))
  /\ (forall checked rt, k = ToDo checked rt ->
       self = (Py.repeat "  " depth ++ "- ["
                 ++ (if checked then "x" else " ") ++ "] "
                 ++ _rich_text_to_markdown rt, s))
  /\ (is_list_item k = false ->
      forall d : nat, _block_to_markdown net images_dir b d s = self).
Proof.
  intros k self deeper sub.
  split; [|split; [|split; [|split; [|split; [|split]]]]].
  - split.
    + destruct k; try discriminate; intros _; eexists; eauto.
    + intros (rt & [-> | [-> | (c & ->)]]); reflexivity.
  - subst deeper. destruct (is_list_item k); split; intros H;
      try reflexivity; try lia; discriminate.
  - destruct b as [id k0 hc cs]. cbn [has_children]. intros ->.
    rewrite block_lines_unfold.
    subst sub deeper k. cbn [kind children]. fold (child_depth k0 depth).
    subst self. destruct (_block_to_markdown _ _ _ _ _) as [md s1].
    cbn [fst snd].
    destruct (_blocks_to_markdown _ _ _ _ _) as [child_md s2].
    cbn [fst snd filter Py.append].
    destruct (Py.truthy md), (Py.truthy child_md); reflexivity.
  - intros rt Hk. subst self. unfold _block_to_markdown.
    fold k. rewrite Hk. reflexivity.
  - intros rt Hk. subst self. unfold _block_to_markdown.
    fold k. rewrite Hk. reflexivity.
  - intros checked rt Hk. subst self. unfold _block_to_markdown.
    fold k. rewrite Hk. reflexivity.
  - intros Hk d. subst self.
    rewrite (block_to_markdown_depth b d), (block_to_markdown_depth b depth).
    fold k. rewrite Hk. reflexivity.
Qed.

End TreeRenderer.

(** The theorem [depth_and_indentation] at a to-do under a bulleted item
    and at a paragraph under a quote. *)
Lemma depth_and_indentation_witness :
  let todo := Sample.leaf (ToDo true [Sample.plain "Ship it"]) in
  let para := Sample.leaf (Paragraph [Sample.plain "inside"]) in
  let item := Block "i" (BulletedListItem [Sample.plain "p"]) true [todo] in
  let quote := Block "q" (Quote [Sample.plain "said"]) true [para] in
  has_children item = true
  /\ block_lines Sample.always_up "out/images" 0 item Sample.fresh
     = (["- p"; "  - [x] Ship it"], Sample.fresh)
  /\ block_lines Sample.always_up "out/images" 3 quote Sample.fresh
     = (["> said"; "inside"], Sample.fresh).
Proof.
  intros todo para item quote.
  split; [reflexivity | split].
  - exact (proj1 (proj2 (proj2 (depth_and_indentation Sample.always_up
                                  "out/images" item 0 Sample.fresh)))
             eq_refl).
  - exact (proj1 (proj2 (proj2 (depth_and_indentation Sample.always_up
                                  "out/images" quote 3 Sample.fresh)))
             eq_refl).
Defined.

(** ** Image numbering *)

Section Numbering.

Variable net : network.
Variable images_dir : string.

Local Abbreviation run := (numbered_run images_dir).

Lemma numbered_from_app (n : nat) (a b : list string) :
  numbered_from images_dir n (a ++ b)%list
  = (numbered_from images_dir n a
       ++ numbered_from images_dir (n + List.length a) b)%list.
Proof.
  revert n. induction a as [|u a IH]; intros n; simpl.
  - now rewrite Nat.add_0_r.
  - rewrite IH. do 3 f_equal. lia.
Qed.

Lemma numbered_run_refl (s : session) : run s s [].
Proof.
  unfold numbered_run. simpl. now rewrite List.app_nil_r, Nat.add_0_r.
Qed.

Lemma numbered_run_trans (s1 s2 s3 : session) (a b : list string) :
  run s1 s2 a -> run s2 s3 b ->
  run s1 s3 (a ++ b)%list.
Proof.
  unfold numbered_run. intros [Hd1 Hc1] [Hd2 Hc2].
  rewrite Hd2, Hd1, Hc2, Hc1, numbered_from_app, List.length_app.
  split; [|lia].
  rewrite <- List.app_assoc. do 3 f_equal. lia.
Qed.

(** A single block: only an image block with a URL downloads. *)
Lemma block_to_markdown_run (b : block) (depth : nat) (s : session) :
  run s (snd (_block_to_markdown net images_dir b depth s))
    (extracted_urls (image_blocks [kind b])).
Proof.
  unfold _block_to_markdown.
  destruct (kind b); try apply numbered_run_refl.
  - destruct (Py.truthy (Py.strip expr)); apply numbered_run_refl.
  - unfold image_blocks, extracted_urls. simpl.
    destruct (Py.truthy (_get_image_url image)) eqn:Hurl.
    + apply PyFacts.truthy_true in Hurl.
      rewrite (image_block_with_url net images_dir image s Hurl).
      cbv zeta. unfold numbered_run, Py.append.
      destruct (net _ _ _); simpl; split; reflexivity.
    + apply PyFacts.truthy_false in Hurl.
      rewrite (image_block_without_url net images_dir image s Hurl).
      apply numbered_run_refl.
  - destruct (Py.truthy (_extract_plain_text bookmark_caption));
      apply numbered_run_refl.
Qed.

Lemma blocks_lines_run_of (depth : nat) (blocks : list block) :
  Forall (fun b => forall depth s,
              run s (snd (block_lines net images_dir depth b s))
                (extracted_urls (image_blocks (encounter b)))) blocks ->
  forall s,
    run s (snd (blocks_lines net images_dir depth blocks s))
      (extracted_urls (image_blocks (encounters blocks))).
Proof.
  induction 1 as [|b r Hb _ IH]; intros s.
  - apply numbered_run_refl.
  - rewrite blocks_lines_cons.
    specialize (Hb depth s).
    destruct (block_lines net images_dir depth b s) as [l1 s1].
    specialize (IH s1).
    destruct (blocks_lines net images_dir depth r s1) as [l2 s2].
    cbn [snd] in *.
    unfold encounters, image_blocks, extracted_urls in *.
    cbn [flat_map]. rewrite !flat_map_app.
    eapply numbered_run_trans; eassumption.
Qed.

Lemma block_lines_run (b : block) :
  forall depth s,
    run s (snd (block_lines net images_dir depth b s))
      (extracted_urls (image_blocks (encounter b))).
Proof.
  induction b as [id k hc cs IH] using block_ind. intros depth s.
  rewrite block_lines_unfold.
  pose proof (block_to_markdown_run (Block id k hc cs) depth s) as Hself.
  destruct (_block_to_markdown _ _ _ _ _) as [md s1].
  cbn [snd kind] in Hself. cbn [encounter].
  change (k :: (if hc then flat_map encounter cs else []))
    with ([k] ++ (if hc then flat_map encounter cs else []))%list.
  pose proof (@blocks_lines_run_of (child_depth k depth) cs IH s1) as Hsub.
  clear IH.
  unfold encounters, image_blocks, extracted_urls in *.
  rewrite !flat_map_app.
  destruct hc.
  - unfold _blocks_to_markdown, bind, ret.
    destruct (blocks_lines _ _ _ _ _) as [ls s2].
    cbn [snd] in *. eapply numbered_run_trans; eassumption.
  - cbn [snd flat_map]. rewrite List.app_nil_r. exact Hself.
Qed.

(** The body of a document: whatever the network answers, the downloads
    it makes are those of the image blocks with a URL, in the order the
    renderer meets them, to files numbered from the counter on. *)
Lemma blocks_to_markdown_run (blocks : list block) (depth : nat)
    (s : session) :
  run s (snd (_blocks_to_markdown net images_dir blocks depth s))
    (extracted_urls (image_blocks (encounters blocks))).
Proof.
  unfold _blocks_to_markdown, bind, ret.
  pose proof (@blocks_lines_run_of depth blocks
                (proj2 (Forall_forall _ blocks)
                   (fun b _ => block_lines_run b)) s) as H.
  destruct (blocks_lines _ _ _ _ _). exact H.
Qed.

Lemma nth_numbered_from (n0 n : nat) (urls : list string) (u : string) :
  nth_error urls n = Some u ->
  nth_error (numbered_from images_dir n0 urls) n
  = Some (u, image_path images_dir (n0 + n) u).
Proof.
  revert n0 n. induction urls as [|v urls IH]; intros n0 [|n]; simpl;
    try discriminate.
  - intros [= ->]. now rewrite Nat.add_0_r.
  - intros H. rewrite (IH (S n0) n H). do 3 f_equal. lia.
Qed.

End Numbering.

Section DocumentNumbering.

Variable net : network.

Lemma fetch_cover_run (cover : option image_obj) (images_dir : string)
    (s : session) :
  let s' := snd (fetch_cover net cover images_dir s) in
  downloads s' = (downloads s ++ cover_download cover images_dir)%list
  /\ image_counter s' = image_counter s.
Proof.
  unfold fetch_cover, cover_download. destruct cover as [c|]; simpl.
  - destruct (Py.truthy (_get_image_url c)); simpl.
    + unfold bind, _download_image, images_append, ret, Py.append.
      cbn [downloads]. destruct (net _ _ _); simpl; split; reflexivity.
    + now rewrite List.app_nil_r.
  - now rewrite List.app_nil_r.
Qed.

Lemma format_03d_digit (n : nat) :
  n < 10 -> Py.format_03d n = "00" ++ String (ascii_of_nat (48 + n)) "".
Proof.
  intros H.
  do 10 (destruct n as [|n]; [reflexivity|]). lia.
Qed.

(** C1, as the code has it: in every document conversion the counter
    starts at 0 and the image blocks from which a URL is extracted, in
    the order the renderer meets them, take the counter values 1, 2, ...:
    the N-th of them is downloaded to the file [image_] followed by N on
    three digits, whatever the network answers. *)
Theorem image_numbering (page : page) (output_dir : string) (s : session) :
  let images_dir := Path_div output_dir "images" in
  let urls :=
    extracted_urls (image_blocks (encounters (page_blocks page))) in
  let s' := snd (_process_page net page output_dir s) in
  image_counter (snd (reset_image_tracking s)) = 0
  /\ downloads s'
     = (downloads s ++ cover_download (cover page) images_dir
          ++ numbered_from images_dir 1 urls)%list
  /\ image_counter s' = List.length urls
  /\ (forall (n : nat) (u : string),
       nth_error urls n = Some u ->
       nth_error (numbered_from images_dir 1 urls) n
       = Some (u, images_dir ++ "/" ++ "image_" ++ Py.format_03d (n + 1)
                    ++ _get_extension u))
  /\ (forall n : nat,
       n < 10 ->
       Py.format_03d n = "00" ++ String (ascii_of_nat (48 + n)) "").
Proof.
  intros images_dir urls s'.
  split; [reflexivity|].
  assert (Hrun : downloads s'
                 = (downloads s ++ cover_download (cover page) images_dir
                      ++ numbered_from images_dir 1 urls)%list
                 /\ image_counter s' = List.length urls).
  { subst s'. unfold _process_page, bind.
    destruct (reset_image_tracking s) as [u s0] eqn:Hreset.
    assert (Hd0 : downloads s0 = downloads s)
      by (unfold reset_image_tracking in Hreset; now inversion Hreset).
    assert (Hc0 : image_counter s0 = 0)
      by (unfold reset_image_tracking in Hreset; now inversion Hreset).
    pose proof (fetch_cover_run (cover page) images_dir s0) as [Hd1 Hc1].
    fold images_dir.
    destruct (fetch_cover net (cover page) images_dir s0) as [ci s1].
    cbn [snd] in Hd1, Hc1.
    pose proof (blocks_to_markdown_run net images_dir (page_blocks page)
                  0 s1) as [Hd2 Hc2].
    destruct (_blocks_to_markdown net images_dir (page_blocks page) 0 s1)
      as [md s2].
    cbn [snd] in *. fold urls in Hd2, Hc2.
    rewrite Hd2, Hc2, Hd1, Hc1, Hc0, Hd0. split; [|reflexivity].
    now rewrite <- List.app_assoc. }
  split; [exact (proj1 Hrun) | split; [exact (proj2 Hrun) | split]].
  - intros n u Hn.
    rewrite (nth_numbered_from images_dir 1 n urls u Hn).
    replace (1 + n) with (n + 1) by lia. reflexivity.
  - exact format_03d_digit.
Qed.

End DocumentNumbering.

(** C1, as worded: after an image block without a URL the next image block
    is the second one met, and yet it is written to the file numbered 1. *)
Lemma not_numbered_by_encounter :
  ~ numbered_by_encounter Sample.always_up "out/images"
      [Sample.leaf (Image Sample.image_without_url);
       Sample.leaf (Image (Sample.external_image
                             "https://example.com/a.png" []))].
Proof.
  intros H.
  specialize (H 1 (Sample.external_image "https://example.com/a.png" [])
                eq_refl eq_refl).
  vm_compute in H. destruct H as [H | []]. discriminate H.
Qed.

(** The theorem [image_numbering] at a page whose first image block has no
    URL, on a network that is down. *)
Lemma image_numbering_witness :
  let page :=
    {| page_id := "p"; prop_title := [Sample.plain "T"]; prop_Name := [];
       prop_slug := []; cover := None;
       page_blocks :=
         [Sample.leaf (Image Sample.image_without_url);
          Sample.leaf (Image (Sample.external_image
                                "https://example.com/a.png" []))] |} in
  let urls := extracted_urls (image_blocks (encounters (page_blocks page))) in
  nth_error urls 0 = Some "https://example.com/a.png"
  /\ nth_error (numbered_from "out/images" 1 urls) 0
     = Some ("https://example.com/a.png", "out/images/image_001.png")
  /\ downloads (snd (_process_page Sample.always_down page "out"
                       Sample.fresh))
     = [("https://example.com/a.png", "out/images/image_001.png")].
Proof.
  intros page urls.
  pose proof (image_numbering Sample.always_down page "out" Sample.fresh)
    as (_ & Hd & _ & Hn & _).
  split; [reflexivity | split].
  - exact (Hn 0 "https://example.com/a.png" eq_refl).
  - exact Hd.
Defined.

(** ** Tables *)

Section Tables.

Lemma table_rows_loop_acc (i : nat) (rows : list block)
    (md_rows : list string) :
  table_rows_loop i rows md_rows
  = (md_rows ++ table_rows_loop i rows [])%list.
Proof.
  revert i md_rows. induction rows as [|row rest IH]; intros i md_rows.
  - simpl. now rewrite List.app_nil_r.
  - cbn [table_rows_loop]. destruct (kind row); try apply IH.
    rewrite IH. symmetry. rewrite IH. unfold Py.append.
    destruct (i =? 0)%nat; cbn [List.app]; now rewrite <- ?List.app_assoc.
Qed.

Lemma table_rows_loop_later (i : nat) (rows : list block) :
  table_rows_loop (S i) rows [] = row_lines rows.
Proof.
  revert i. induction rows as [|row rest IH]; intros i; [reflexivity|].
  cbn [table_rows_loop row_lines flat_map].
  destruct (kind row); try apply IH.
  rewrite table_rows_loop_acc, IH. reflexivity.
Qed.

(** Where the first child of the table is a table row, its line is followed
    by a separator with one column per cell of that row, and no other
    separator follows, whatever the lengths of the later rows. *)
Lemma separator_after_first_row (id : string) (hc : bool)
    (row : block) (rest : list block) (cells : list rich_text) :
  kind row = TableRow cells ->
  _table_to_markdown (Block id Table hc (row :: rest))
  = Py.join Py.nl
      (row_line cells :: separator_line (List.length cells) :: row_lines rest).
Proof.
  intros Hrow. unfold _table_to_markdown. cbn [children table_rows_loop].
  rewrite Hrow. cbn [Nat.eqb]. rewrite table_rows_loop_acc.
  rewrite table_rows_loop_later. reflexivity.
Qed.

(** C5 fails where the first child of the table is not a table row: its
    index is 0, it is passed over, and the first table row, at index 1,
    gets no separator. *)
Lemma no_separator_after_stray_child :
  _table_to_markdown SampleTables.stray_first_child
  = "| a | b |" ++ Py.nl ++ "| c | d |"
  /\ Py.contains "---" (_table_to_markdown SampleTables.stray_first_child)
     = false.
Proof. split; reflexivity. Qed.

(** The table of the specification's scenario: two cells, then three. *)
Lemma separator_of_ragged_table :
  _table_to_markdown SampleTables.ragged
  = "| a | b |" ++ Py.nl ++ "| --- | --- |" ++ Py.nl ++ "| c | d | e |".
Proof. reflexivity. Qed.

End Tables.

(** ** Document assembly *)

Section Assembly.

Lemma replace_first_prefix (old new rest : string) :
  Py.replace_first old new (old ++ rest) = new ++ rest.
Proof.
  destruct (old ++ rest) as [|c r] eqn:Heq; cbn [Py.replace_first];
    rewrite <- Heq, PyFacts.prefix_app, PyFacts.skip_app; reflexivity.
Qed.

Lemma replace_first_absent (old new s : string) :
  Py.contains old s = false -> Py.replace_first old new s = s.
Proof.
  induction s as [|c s IH]; cbn [Py.contains Py.replace_first].
  - destruct (String.prefix old ""); [discriminate | reflexivity].
  - destruct (String.prefix old (String c s)); [discriminate|].
    intros H. now rewrite IH.
Qed.

Lemma fetch_cover_path (net : network) (cover : option image_obj)
    (images_dir : string) (s : session) (path : string) :
  fst (fetch_cover net cover images_dir s) = Some path ->
  Py.truthy path = true.
Proof.
  unfold fetch_cover. destruct cover as [c|]; [|discriminate].
  destruct (Py.truthy (_get_image_url c)); [|discriminate].
  unfold bind, _download_image, images_append, ret.
  destruct (net _ _ _); [|discriminate].
  cbn [fst]. intros [= <-]. unfold Path_div.
  apply PyFacts.truthy_true.
  destruct images_dir; discriminate.
Qed.

(** The article [_process_page] returns, in terms of its steps. *)
Lemma process_page_markdown (net : network) (page : page)
    (output_dir : string) (s : session) :
  let images_dir := Path_div output_dir "images" in
  let c := fetch_cover net (cover page) images_dir
             (snd (reset_image_tracking s)) in
  let body := fst (_blocks_to_markdown net images_dir (page_blocks page) 0
                     (snd c)) in
  let art := fst (_process_page net page output_dir s) in
  cover_image art = fst c
  /\ markdown art = assemble (title art) (fst c) body.
Proof.
  cbv zeta. unfold _process_page, bind.
  destruct (reset_image_tracking s) as [u s0]. cbn [snd].
  destruct (fetch_cover _ _ _ s0) as [ci s1]. cbn [fst snd].
  destruct (_blocks_to_markdown _ _ _ _ s1) as [md s2]. cbn [fst snd].
  split; reflexivity.
Qed.

(** Where the cover is placed as intended: when the cover was downloaded
    and the title is not empty, the final text is the title heading, the
    cover image and the body, in this order and each once, the body being
    left as it is; when the title is empty and the body has no empty
    heading followed by a blank line, the final text is the body and the
    cover is not in it. *)
Theorem cover_insertion (net : network) (page : page) (output_dir : string)
    (s : session) (path : string) :
  let images_dir := Path_div output_dir "images" in
  let c := fetch_cover net (cover page) images_dir
             (snd (reset_image_tracking s)) in
  let body := fst (_blocks_to_markdown net images_dir (page_blocks page) 0
                     (snd c)) in
  let art := fst (_process_page net page output_dir s) in
  cover_image art = Some path ->
  (title art <> "" ->
   markdown art
   = ("# " ++ title art ++ Py.nl ++ Py.nl)
       ++ ("![cover](" ++ path ++ ")" ++ Py.nl ++ Py.nl)
       ++ body)
  /\ (title art = "" ->
      Py.contains ("# " ++ Py.nl ++ Py.nl) body = false ->
      markdown art = body).
Proof.
  intros images_dir c body art Hcover.
  destruct (process_page_markdown net page output_dir s) as [Hc Hmd].
  fold images_dir in Hc, Hmd. fold c in Hc, Hmd. fold body in Hmd.
  fold art in Hc, Hmd.
  rewrite Hcover in Hc. symmetry in Hc.
  pose proof (fetch_cover_path _ _ _ _ _ Hc) as Hpath.
  rewrite Hmd, Hc. unfold assemble. rewrite Hpath.
  split.
  - intros Ht. apply PyFacts.truthy_true in Ht. rewrite Ht.
    rewrite <- !PyFacts.app_assoc.
    rewrite replace_first_prefix.
    now rewrite !PyFacts.app_assoc.
  - intros Ht Hbody. rewrite Ht. cbn [Py.truthy].
    now apply replace_first_absent.
Qed.

End Assembly.

(** The theorem [cover_insertion] at a page with a title and a cover. *)
Lemma cover_insertion_witness :
  let art := fst (_process_page Sample.always_up SamplePages.titled "out"
                    Sample.fresh) in
  cover_image art = Some "out/images/cover.png"
  /\ title art <> ""
  /\ markdown art
     = "# Hello" ++ Py.nl ++ Py.nl
         ++ "![cover](out/images/cover.png)" ++ Py.nl ++ Py.nl ++ "World".
Proof.
  intros art.
  assert (H1 : cover_image art = Some "out/images/cover.png") by reflexivity.
  assert (H2 : title art <> "") by (vm_compute; discriminate).
  split; [exact H1 | split; [exact H2 |]].
  exact (proj1 (cover_insertion Sample.always_up SamplePages.titled "out"
                  Sample.fresh "out/images/cover.png" H1) H2).
Defined.

(** C6 fails on a page without a title whose body has an empty heading:
    the replacement looks for the title heading, which was not added, and
    with an empty title its pattern is that of an empty heading followed by
    a blank line; the cover, which should be left out, is inserted after
    that heading. *)
Lemma cover_inserted_without_title :
  let art := fst (_process_page Sample.always_up
                    SamplePages.untitled_with_empty_heading "out"
                    Sample.fresh) in
  title art = ""
  /\ cover_image art = Some "out/images/cover.png"
  /\ markdown art
     = "# " ++ Py.nl ++ Py.nl ++ "![cover](out/images/cover.png)"
            ++ Py.nl ++ Py.nl ++ "x"
  /\ Py.contains "![cover](out/images/cover.png)" (markdown art) = true.
Proof. repeat split. Qed.

(** The same on a page without a title whose empty heading is a
    second-level one in the middle of the body. *)
Lemma cover_inserted_after_empty_subheading :
  let page :=
    {| page_id := "p"; prop_title := []; prop_Name := []; prop_slug := [];
       cover := Some SamplePages.cover_object;
       page_blocks := [Sample.leaf (Paragraph [Sample.plain "intro"]);
                       Sample.leaf (Heading2 []);
                       Sample.leaf (Paragraph [Sample.plain "x"])] |} in
  markdown (fst (_process_page Sample.always_up page "out" Sample.fresh))
  = "intro" ++ Py.nl ++ Py.nl ++ "## " ++ Py.nl ++ Py.nl
      ++ "![cover](out/images/cover.png)" ++ Py.nl ++ Py.nl ++ "x".
Proof. reflexivity. Qed.

(** ** File extensions *)

Module PathFacts.

Lemma has_char_app (c : ascii) (a b : string) :
  Py.has_char c (a ++ b) = Py.has_char c a || Py.has_char c b.
Proof.
  induction a as [|x a IH]; simpl; [reflexivity|].
  destruct (Ascii.eqb x c); [reflexivity | exact IH].
Qed.

Lemma has_char_split (c : ascii) (s : string) :
  Py.has_char c s = true -> exists a b, s = a ++ String c b.
Proof.
  induction s as [|x s IH]; simpl; [discriminate|].
  destruct (Ascii.eqb_spec x c) as [->|Hne].
  - intros _. now exists "", s.
  - intros H. destruct (IH H) as (a & b & ->). now exists (String x a), b.
Qed.

Lemma contains_char (c : ascii) (s : string) :
  Py.contains (String c "") s = Py.has_char c s.
Proof.
  induction s as [|x s IH]; [reflexivity|].
  cbn [Py.contains Py.has_char String.prefix].
  destruct (ascii_dec c x) as [->|Hne].
  - rewrite Ascii.eqb_refl. now destruct s.
  - rewrite IH. destruct (Ascii.eqb_spec x c) as [->|_];
      [contradiction | reflexivity].
Qed.

Lemma split_head_spec (c : ascii) (s : string) :
  Py.has_char c (Py.split_head c s) = false
  /\ (s = Py.split_head c s
      \/ exists rest, s = Py.split_head c s ++ String c rest).
Proof.
  induction s as [|x s [IH1 IH2]]; simpl.
  - split; [reflexivity | now left].
  - destruct (Ascii.eqb_spec x c) as [->|Hne]; simpl.
    + split; [reflexivity | right; now exists s].
    + apply Ascii.eqb_neq in Hne. rewrite Hne. split; [exact IH1|].
      destruct IH2 as [IH2 | (rest & IH2)].
      * left. now rewrite <- IH2.
      * right. exists rest. now rewrite <- IH2.
Qed.

Lemma rfind_absent (c : ascii) (s : string) :
  Py.has_char c s = false -> Py.rfind c s = None.
Proof.
  induction s as [|x s IH]; simpl; [reflexivity|].
  destruct (Ascii.eqb x c); [discriminate|].
  intros H. now rewrite IH.
Qed.

Lemma rfind_app_absent (c : ascii) (a b : string) :
  Py.has_char c b = false -> Py.rfind c (a ++ b) = Py.rfind c a.
Proof.
  intros Hb. induction a as [|x a IH]; simpl.
  - now apply rfind_absent.
  - now rewrite IH.
Qed.

Lemma rfind_last (c : ascii) (a b : string) :
  Py.has_char c b = false ->
  Py.rfind c (a ++ String c b) = Some (String.length a).
Proof.
  intros Hb. induction a as [|x a IH]; simpl.
  - now rewrite (rfind_absent c b Hb), Ascii.eqb_refl.
  - now rewrite IH.
Qed.

Lemma rfind_lt (c : ascii) (s : string) (i : nat) :
  Py.rfind c s = Some i -> i < String.length s.
Proof.
  revert i. induction s as [|x s IH]; simpl; [discriminate|].
  intros i. destruct (Py.rfind c s) as [j|].
  - intros [= <-]. specialize (IH j eq_refl). lia.
  - destruct (Ascii.eqb x c); [|discriminate]. intros [= <-]. lia.
Qed.

Lemma rfind_split (c : ascii) (s : string) (i : nat) :
  Py.rfind c s = Some i ->
  exists a b, s = a ++ String c b /\ String.length a = i
              /\ Py.has_char c b = false.
Proof.
  revert i. induction s as [|x s IH]; simpl; [discriminate|].
  intros i. destruct (Py.rfind c s) as [j|] eqn:Hj.
  - intros [= <-]. destruct (IH j eq_refl) as (a & b & -> & <- & Hb).
    now exists (String x a), b.
  - destruct (Ascii.eqb_spec x c) as [->|_]; [|discriminate].
    intros [= <-]. exists "", s. repeat split.
    destruct (Py.has_char c s) eqn:Hs; [|reflexivity].
    destruct (has_char_split c s Hs) as (a & b & ->).
    assert (Hnone : Py.rfind c (a ++ String c b) <> None).
    { clear. induction a as [|y a IHa]; simpl.
      - destruct (Py.rfind c b); [discriminate|].
        rewrite Ascii.eqb_refl. discriminate.
      - destruct (Py.rfind c (a ++ String c b)); [discriminate|].
        contradiction. }
    contradiction.
Qed.

Lemma rfind_ge (c : ascii) (a b : string) :
  exists i, Py.rfind c (a ++ String c b) = Some i /\ String.length a <= i.
Proof.
  induction a as [|x a (i & Hi & Hle)]; simpl.
  - destruct (Py.rfind c b) as [j|].
    + exists (S j). split; [reflexivity | lia].
    + rewrite Ascii.eqb_refl. exists 0. split; [reflexivity | lia].
  - rewrite Hi. exists (S i). split; [reflexivity | lia].
Qed.

Lemma substring_at (a b : string) (c : ascii) :
  substring (String.length a) 1 (a ++ String c b) = String c "".
Proof.
  induction a as [|x a IH]; simpl; [now destruct b | exact IH].
Qed.

Lemma substring_prefix (a b : string) :
  substring 0 (String.length a) (a ++ b) = a.
Proof.
  induction a as [|x a IH]; simpl; [now destruct b | now rewrite IH].
Qed.

Lemma split_at (k : nat) (s : string) :
  k < String.length s ->
  exists a c b, s = a ++ String c b /\ String.length a = k.
Proof.
  revert k. induction s as [|x s IH]; simpl; [lia|].
  intros [|k] Hk.
  - now exists "", x, s.
  - destruct (IH k) as (a & c & b & -> & <-); [lia|].
    now exists (String x a), c, b.
Qed.

Lemma skip_leading_dots_true (p : string) (i n : nat) :
  Py.skip_leading_dots p i n = true <->
  exists k, i <= k < i + n /\ substring k 1 p <> ".".
Proof.
  revert i. induction n as [|n IH]; intros i; cbn [Py.skip_leading_dots].
  - split; [discriminate | intros (k & Hk & _); lia].
  - destruct (String.eqb_spec (substring i 1 p) ".") as [Heq|Hne];
      cbn [negb].
    + rewrite IH. split; intros (k & Hk & Hc).
      * exists k. split; [lia | exact Hc].
      * exists k. split; [|exact Hc].
        destruct (Nat.eq_dec k i) as [->|]; [contradiction | lia].
    + split; [|reflexivity]. intros _. exists i. split; [lia | exact Hne].
Qed.

Lemma mem_In (x : string) (l : list string) :
  Py.mem x l = true <-> In x l.
Proof.
  induction l as [|y l IH]; simpl; [split; [discriminate | tauto]|].
  destruct (String.eqb_spec x y) as [->|Hne].
  - split; auto.
  - rewrite IH. split; [auto | intros [H|H]; [congruence | exact H]].
Qed.

Lemma lower_char_dot (c : ascii) :
  Py.lower_char c = "."%char -> c = "."%char.
Proof.
  unfold Py.lower_char.
  destruct c as [[] [] [] [] [] [] [] []]; vm_compute; congruence.
Qed.

Lemma lower_char_slash (c : ascii) :
  Py.lower_char c = "/"%char -> c = "/"%char.
Proof.
  unfold Py.lower_char.
  destruct c as [[] [] [] [] [] [] [] []]; vm_compute; congruence.
Qed.

Lemma has_dot_lower (s : string) :
  Py.has_char "." (Py.lower s) = Py.has_char "." s.
Proof.
  induction s as [|c s IH]; simpl; [reflexivity|]. rewrite IH.
  destruct (Ascii.eqb_spec (Py.lower_char c) ".") as [H|H];
    destruct (Ascii.eqb_spec c ".") as [H'|H']; try reflexivity.
  - apply lower_char_dot in H. contradiction.
  - subst c. now vm_compute in H.
Qed.

Lemma has_slash_lower (s : string) :
  Py.has_char "/" (Py.lower s) = Py.has_char "/" s.
Proof.
  induction s as [|c s IH]; simpl; [reflexivity|]. rewrite IH.
  destruct (Ascii.eqb_spec (Py.lower_char c) "/") as [H|H];
    destruct (Ascii.eqb_spec c "/") as [H'|H']; try reflexivity.
  - apply lower_char_slash in H. contradiction.
  - subst c. now vm_compute in H.
Qed.

(** A recognised extension is a dot followed by characters that are
    neither dots nor slashes. *)
Lemma extension_shape (e : string) :
  In (Py.lower e) image_extensions ->
  exists e', e = String "." e' /\ Py.has_char "." e' = false
             /\ Py.has_char "/" e' = false.
Proof.
  intros H. destruct e as [|c e'].
  - simpl in H. decompose [or] H; try discriminate; contradiction.
  - exists e'. cbn [Py.lower] in H.
    assert (Hc : Py.lower_char c = "."%char
                 /\ Py.has_char "." (Py.lower e') = false
                 /\ Py.has_char "/" (Py.lower e') = false).
    { simpl in H. decompose [or] H; try contradiction;
        match goal with
        | Heq : _ = String _ _ |- _ =>
            injection Heq as Heq1 Heq2; rewrite <- Heq2, <- Heq1;
            repeat split
        end. }
    destruct Hc as (Hc & Hd & Hs).
    rewrite has_dot_lower in Hd. rewrite has_slash_lower in Hs.
    apply lower_char_dot in Hc. now subst c.
Qed.

(** What [splitext] takes for an extension: a suffix that starts at the
    last dot, where the name before it, within the last path segment, has
    a character other than a dot. *)
Lemma splitext_extension (p stem e' a b : string) (c : ascii) :
  p = stem ++ String "." e' ->
  Py.has_char "." e' = false -> Py.has_char "/" e' = false ->
  stem = a ++ String c b -> c <> "."%char ->
  Py.has_char "/" (String c b) = false ->
  Py.splitext p = (stem, String "." e').
Proof.
  intros Hp Hdot Hslash Hstem Hc Hseg.
  unfold Py.splitext.
  assert (Hd : Py.rfind "." p = Some (String.length stem))
    by (rewrite Hp; now apply rfind_last).
  assert (Hs : Py.rfind "/" p = Py.rfind "/" a).
  { rewrite Hp, Hstem, PyFacts.app_assoc. apply rfind_app_absent.
    rewrite has_char_app, Hseg. simpl. exact Hslash. }
  rewrite Hd, Hs.
  set (filenameIndex := match Py.rfind "/" a with
                        | Some i => S i
                        | None => 0
                        end).
  assert (Hfi : filenameIndex <= String.length a).
  { subst filenameIndex. destruct (Py.rfind "/" a) as [i|] eqn:Hi;
      [apply rfind_lt in Hi|]; lia. }
  assert (Hlen : String.length stem
                 = String.length a + S (String.length b))
    by (rewrite Hstem, PyFacts.length_app; reflexivity).
  destruct (Nat.leb_spec filenameIndex (String.length stem)) as [_|Hgt];
    [|lia].
  assert (Hloop : Py.skip_leading_dots p filenameIndex
                    (String.length stem - filenameIndex) = true).
  { apply skip_leading_dots_true. exists (String.length a).
    split; [lia|].
    rewrite Hp, Hstem, PyFacts.app_assoc. cbn [String.append].
    rewrite substring_at. congruence. }
  rewrite Hloop, Hp, substring_prefix, PyFacts.skip_app. reflexivity.
Qed.

(** Conversely, a non-empty extension given by [splitext] has this
    shape. *)
Lemma splitext_extension_inv (p e : string) :
  snd (Py.splitext p) = e -> e <> "" ->
  exists stem a c b,
    p = stem ++ e /\ stem = a ++ String c b /\ c <> "."%char
    /\ Py.has_char "/" (String c b) = false.
Proof.
  unfold Py.splitext. intros He Hne.
  destruct (Py.rfind "." p) as [d|] eqn:Hd;
    [|cbn [snd] in He; congruence].
  set (filenameIndex := match Py.rfind "/" p with
                        | Some i => S i
                        | None => 0
                        end) in *.
  destruct (Nat.leb_spec filenameIndex d) as [Hle|_];
    [|cbn [snd] in He; congruence].
  destruct (Py.skip_leading_dots p filenameIndex (d - filenameIndex))
    eqn:Hloop; [|cbn [snd] in He; congruence].
  cbn [snd] in He.
  apply skip_leading_dots_true in Hloop. destruct Hloop as (k & Hk & Hnd).
  destruct (rfind_split "." p d Hd) as (x & y & Hp & Hx & Hy).
  destruct (split_at k x) as (a & c & b & Hxs & Ha); [lia|].
  assert (He' : e = String "." y).
  { rewrite <- He, Hp, <- Hx. apply PyFacts.skip_app. }
  exists x, a, c, b. repeat split.
  - now rewrite He'.
  - exact Hxs.
  - intros ->. apply Hnd.
    rewrite Hp, Hxs, <- Ha, PyFacts.app_assoc. cbn [String.append].
    apply substring_at.
  - destruct (Py.has_char "/" (String c b)) eqn:Hseg; [|reflexivity].
    exfalso.
    destruct (has_char_split "/" _ Hseg) as (u & v & Huv).
    assert (Hp' : p = (a ++ u) ++ String "/" (v ++ String "." y)).
    { rewrite Hp, Hxs, Huv, !PyFacts.app_assoc. reflexivity. }
    destruct (rfind_ge "/" (a ++ u) (v ++ String "." y)) as (i & Hi & Hge).
    rewrite <- Hp' in Hi. subst filenameIndex. rewrite Hi in *.
    rewrite PyFacts.length_app in Hge. lia.
Qed.

End PathFacts.

Section Extensions.

(** C9, as the code has it: the query string is stripped first; when what
    remains ends in an extension that is recognised up to case, after a
    name that has, within the last path segment, a character other than a
    dot, the extension is returned in lower case; in every other case the
    result is [.png] for a URL that contains [amazonaws.com] or [notion],
    and [.jpg] otherwise. *)
Theorem get_extension_cases (url : string) :
  let clean_url := Py.split_head "?" url in
  let default :=
    if Py.contains "amazonaws.com" url || Py.contains "notion" url
    then ".png" else ".jpg" in
  Py.has_char "?" clean_url = false
  /\ (url = clean_url \/ exists query, url = clean_url ++ "?" ++ query)
  /\ (forall e, has_image_extension clean_url e ->
                _get_extension url = Py.lower e)
  /\ ((forall e, ~ has_image_extension clean_url e) ->
      _get_extension url = default).
Proof.
  intros clean_url default.
  destruct (PathFacts.split_head_spec "?" url) as [Hq Hsplit].
  fold clean_url in Hq, Hsplit.
  split; [exact Hq | split; [exact Hsplit | split]].
  - intros e (stem & a & c & b & Hclean & Hin & Hstem & Hc & Hseg).
    destruct (PathFacts.extension_shape e Hin) as (e' & -> & Hdot & Hslash).
    unfold _get_extension. fold clean_url.
    assert (Hhas : Py.contains "." clean_url = true).
    { rewrite PathFacts.contains_char, Hclean, PathFacts.has_char_app.
      simpl. apply orb_true_r. }
    rewrite Hhas.
    rewrite (PathFacts.splitext_extension clean_url stem e' a b c
               Hclean Hdot Hslash Hstem Hc Hseg).
    cbn [snd].
    now rewrite (proj2 (PathFacts.mem_In _ _) Hin).
  - intros Hnone. unfold _get_extension. fold clean_url. fold default.
    destruct (Py.contains "." clean_url); [|reflexivity].
    destruct (Py.mem (Py.lower (snd (Py.splitext clean_url)))
                image_extensions) eqn:Hmem; [|reflexivity].
    exfalso. apply PathFacts.mem_In in Hmem.
    destruct (PathFacts.extension_shape _ Hmem) as (e' & He & _ & _).
    destruct (PathFacts.splitext_extension_inv clean_url
                (snd (Py.splitext clean_url)) eq_refl)
      as (stem & a & c & b & Hp & Hstem & Hc & Hseg).
    { rewrite He. discriminate. }
    apply (Hnone (snd (Py.splitext clean_url))).
    exists stem, a, c, b. repeat split; assumption.
Qed.

End Extensions.

(** The theorem [get_extension_cases] at a URL with an upper-case
    extension and a query string. *)
Lemma get_extension_cases_witness :
  has_image_extension (Py.split_head "?" "https://example.com/a/photo.PNG?v=2")
    ".PNG"
  /\ _get_extension "https://example.com/a/photo.PNG?v=2" = ".png".
Proof.
  assert (H : has_image_extension
                (Py.split_head "?" "https://example.com/a/photo.PNG?v=2")
                ".PNG").
  { exists "https://example.com/a/photo", "https://example.com/a/", "p"%char,
      "hoto".
    repeat split; try reflexivity.
    - simpl. auto.
    - discriminate. }
  split; [exact H|].
  exact (proj1 (proj2 (proj2 (get_extension_cases
                                "https://example.com/a/photo.PNG?v=2")))
           ".PNG" H).
Defined.

(** C9, as worded: the path of this URL ends in [.png], and the result is
    [.jpg], because the file name has nothing before the dot. *)
Lemma extension_of_dot_file :
  ends_in_image_extension (Py.split_head "?" "https://example.com/.png")
    ".png"
  /\ _get_extension "https://example.com/.png" = ".jpg"
  /\ _get_extension "https://example.com/.png" <> Py.lower ".png".
Proof.
  split; [|split].
  - split; [now exists "https://example.com/" | simpl; auto].
  - reflexivity.
  - vm_compute. discriminate.
Qed.


(** ** Scenarios of the specification *)

(** A page titled Hello, without cover or slug, with one paragraph. *)
Example hello_world :
  let page :=
    {| page_id := "p"; prop_title := [Sample.plain "Hello"];
       prop_Name := []; prop_slug := []; cover := None;
       page_blocks := [Sample.leaf (Paragraph [Sample.plain "World"])] |} in
  let art := fst (_process_page Sample.always_up page "out" Sample.fresh) in
  markdown art = "# Hello" ++ Py.nl ++ Py.nl ++ "World"
  /\ markdown_file art = "out/article.md".
Proof. split; reflexivity. Qed.

(** Empty renderings leave no blank lines behind: an unsupported block and
    an empty paragraph between two paragraphs. *)
Example empty_blocks_leave_no_lines :
  fst (_blocks_to_markdown Sample.always_up "out/images"
         [Sample.leaf (Paragraph [Sample.plain "a"]);
          Sample.leaf Unsupported;
          Sample.leaf (Paragraph []);
          Sample.leaf (Paragraph [Sample.plain "b"])] 0 Sample.fresh)
  = "a" ++ Py.nl ++ Py.nl ++ "b".
Proof. reflexivity. Qed.

(** * Further properties of the converter *)

(** ** Plain text and the join policy *)

Section PlainText.

Lemma plain_span_step (item : rich_text_item) :
  is_plain_span item = true ->
  rich_text_step [] item
  = if Py.truthy (plain_text item) then [plain_text item] else [].
Proof.
  unfold is_plain_span, rich_text_step.
  destruct (rt_type item =? "equation"); [discriminate|].
  destruct (rt_annotations item) as [b i s u c]; simpl.
  destruct b, i, s, u, c; try discriminate.
  destruct (href_truthy (href item)); [discriminate|].
  intros _. destruct (Py.truthy (plain_text item)); reflexivity.
Qed.

(** Spans that carry no equation, no style and no link render as their
    plain text: on them the Markdown rendering and [_extract_plain_text]
    agree. *)
Theorem unstyled_text_renders_as_plain_text (rt : rich_text) :
  forallb is_plain_span rt = true ->
  _rich_text_to_markdown rt = _extract_plain_text rt.
Proof.
  unfold _rich_text_to_markdown, _extract_plain_text.
  induction rt as [|item rt IH]; [reflexivity|].
  cbn [forallb map]. intros H. apply andb_prop in H as [Hitem Hrt].
  change (item :: rt) with ([item] ++ rt)%list.
  rewrite parts_app, PyFacts.join_empty_app, (IH Hrt).
  cbn [fold_left]. rewrite (plain_span_step item Hitem).
  change ([plain_text item] ++ map plain_text rt)%list
    with (plain_text item :: map plain_text rt).
  rewrite PyFacts.join_empty_cons.
  destruct (plain_text item); reflexivity.
Qed.

Lemma unstyled_text_renders_as_plain_text_witness :
  forallb is_plain_span [Sample.plain "Hello, "; Sample.plain "world"] = true
  /\ _rich_text_to_markdown [Sample.plain "Hello, "; Sample.plain "world"]
     = "Hello, world".
Proof.
  split; [reflexivity|].
  exact (unstyled_text_renders_as_plain_text
           [Sample.plain "Hello, "; Sample.plain "world"] eq_refl).
Defined.

End PlainText.

Section JoinPolicy.

Variable net : network.
Variable images_dir : string.

Lemma block_lines_nonempty (depth : nat) (b : block) (s : session) :
  Forall (fun l => l <> "") (fst (block_lines net images_dir depth b s)).
Proof.
  destruct b as [id k hc cs]. rewrite block_lines_unfold.
  destruct (_block_to_markdown _ _ _ _ _) as [md s1].
  assert (Hmd : Forall (fun l => l <> "")
                  (if Py.truthy md then [md] else [])).
  { destruct (Py.truthy md) eqn:Hm; [|constructor].
    constructor; [now apply PyFacts.truthy_true | constructor]. }
  destruct hc; [|exact Hmd].
  destruct (_blocks_to_markdown _ _ _ _ _) as [child_md s2]. cbn [fst].
  destruct (Py.truthy child_md) eqn:Hc; [|exact Hmd].
  unfold Py.append. apply Forall_app. split; [exact Hmd|].
  constructor; [now apply PyFacts.truthy_true | constructor].
Qed.

Lemma blocks_lines_nonempty (depth : nat) (blocks : list block)
    (s : session) :
  Forall (fun l => l <> "") (fst (blocks_lines net images_dir depth blocks s)).
Proof.
  revert s. induction blocks as [|b r IH]; intros s; [constructor|].
  rewrite blocks_lines_cons.
  pose proof (block_lines_nonempty depth b s) as Hb.
  destruct (block_lines net images_dir depth b s) as [l1 s1].
  specialize (IH s1).
  destruct (blocks_lines net images_dir depth r s1) as [l2 s2].
  cbn [fst] in *. apply Forall_app. now split.
Qed.

Lemma blocks_to_markdown_lines (depth : nat) (blocks : list block)
    (s : session) :
  _blocks_to_markdown net images_dir blocks depth s
  = (Py.join (Py.nl ++ Py.nl)
       (fst (blocks_lines net images_dir depth blocks s)),
     snd (blocks_lines net images_dir depth blocks s)).
Proof.
  unfold _blocks_to_markdown, bind, ret.
  destruct (blocks_lines _ _ _ _ _). reflexivity.
Qed.

Lemma blocks_lines_app (depth : nat) (a b : list block) (s : session) :
  blocks_lines net images_dir depth (a ++ b)%list s
  = let (l1, s1) := blocks_lines net images_dir depth a s in
    let (l2, s2) := blocks_lines net images_dir depth b s1 in
    ((l1 ++ l2)%list, s2).
Proof.
  revert s. induction a as [|x a IH]; intros s.
  - cbn [List.app blocks_lines].
    destruct (blocks_lines net images_dir depth b s). reflexivity.
  - rewrite <- List.app_comm_cons, !blocks_lines_cons.
    destruct (block_lines net images_dir depth x s) as [lx sx].
    rewrite IH.
    destruct (blocks_lines net images_dir depth a sx) as [l1 s1].
    destruct (blocks_lines net images_dir depth b s1) as [l2 s2].
    now rewrite List.app_assoc.
Qed.

Lemma join_cons_nonempty (sep x : string) (l : list string) :
  l <> [] -> Py.join sep (x :: l) = x ++ sep ++ Py.join sep l.
Proof. destruct l; [contradiction | reflexivity]. Qed.

Lemma join_app_nonempty (sep : string) (l1 l2 : list string) :
  l1 <> [] -> l2 <> [] ->
  Py.join sep (l1 ++ l2)%list = Py.join sep l1 ++ sep ++ Py.join sep l2.
Proof.
  intros H1 H2. induction l1 as [|x l1 IH]; [contradiction|].
  destruct l1 as [|y l1].
  - cbn [List.app]. now rewrite join_cons_nonempty.
  - rewrite <- List.app_comm_cons.
    rewrite join_cons_nonempty by discriminate.
    rewrite IH by discriminate.
    rewrite (@join_cons_nonempty sep x (y :: l1)) by discriminate.
    now rewrite !PyFacts.app_assoc.
Qed.

Lemma join_truthy (sep : string) (l : list string) :
  Forall (fun x => x <> "") l ->
  Py.truthy (Py.join sep l) = negb (match l with [] => true | _ => false end).
Proof.
  intros H. destruct H as [|x l Hx _]; [reflexivity|].
  cbn [negb]. destruct x as [|c x]; [contradiction|].
  unfold Py.join. simpl. destruct l; reflexivity.
Qed.

(** Rendering composes over sibling lists: the text of [a ++ b] is the
    text of [a] and the text of [b], rendered one after the other, with a
    blank line between them when neither is empty. *)
Theorem blocks_to_markdown_app (depth : nat) (a b : list block)
    (s : session) :
  let ra := _blocks_to_markdown net images_dir a depth s in
  let rb := _blocks_to_markdown net images_dir b depth (snd ra) in
  _blocks_to_markdown net images_dir (a ++ b)%list depth s
  = (Py.join (Py.nl ++ Py.nl) (filter Py.truthy [fst ra; fst rb]), snd rb).
Proof.
  cbv zeta.
  rewrite !blocks_to_markdown_lines. cbn [fst snd].
  rewrite blocks_lines_app.
  pose proof (blocks_lines_nonempty depth a s) as Ha.
  destruct (blocks_lines net images_dir depth a s) as [l1 s1].
  cbn [fst snd] in *.
  pose proof (blocks_lines_nonempty depth b s1) as Hb.
  destruct (blocks_lines net images_dir depth b s1) as [l2 s2].
  cbn [fst snd] in *. f_equal.
  cbn [filter]. rewrite (join_truthy _ _ Ha), (join_truthy _ _ Hb).
  destruct l1 as [|x l1], l2 as [|y l2]; cbn [negb].
  - reflexivity.
  - reflexivity.
  - now rewrite List.app_nil_r.
  - rewrite join_app_nonempty by discriminate. reflexivity.
Qed.

Lemma join_flatten (sep : string) (la lc lb : list string) :
  lc <> [] ->
  Py.join sep (la ++ [Py.join sep lc] ++ lb)%list
  = Py.join sep (la ++ lc ++ lb)%list.
Proof.
  intros Hc.
  assert (Hright : Py.join sep ([Py.join sep lc] ++ lb)%list
                   = Py.join sep (lc ++ lb)%list).
  { destruct lb as [|y lb].
    - cbn [List.app]. rewrite List.app_nil_r. reflexivity.
    - rewrite !join_app_nonempty by (try discriminate; exact Hc).
      reflexivity. }
  destruct la as [|x la]; [exact Hright|].
  rewrite !(@join_app_nonempty sep (x :: la)); try discriminate.
  - now rewrite Hright.
  - destruct lc; [contradiction | discriminate].
Qed.

Lemma silent_block_to_markdown (b : block) (depth : nat) (s : session) :
  renders_nothing (kind b) = true ->
  _block_to_markdown net images_dir b depth s = ("", s).
Proof.
  unfold _block_to_markdown, renders_nothing.
  destruct (kind b); try discriminate; try reflexivity.
  - intros H. now rewrite PyFacts.strip_truthy, H.
  - intros H. apply negb_true_iff, PyFacts.truthy_false in H.
    now apply image_block_without_url.
Qed.

(** A block that renders nothing itself is transparent: the document
    renders as if the children the renderer visits stood in its place, and
    as if the block were not there when it has none; this holds for
    unsupported blocks, such as toggles, for blank equations and for
    images without a URL. *)
Theorem silent_blocks_are_transparent (b : block) (before after : list block)
    (depth : nat) (s : session) :
  renders_nothing (kind b) = true ->
  _blocks_to_markdown net images_dir (before ++ b :: after)%list depth s
  = _blocks_to_markdown net images_dir
      (before ++ visited_children b ++ after)%list depth s.
Proof.
  intros Hsilent.
  rewrite !blocks_to_markdown_lines, !blocks_lines_app.
  destruct (blocks_lines net images_dir depth before s) as [la s1].
  rewrite blocks_lines_cons.
  destruct b as [id k hc cs]. rewrite block_lines_unfold.
  rewrite (silent_block_to_markdown _ depth s1 Hsilent).
  cbn [kind] in Hsilent. unfold visited_children. cbn [has_children children].
  assert (Hdepth : child_depth k depth = depth).
  { unfold child_depth. destruct k; try discriminate; reflexivity. }
  rewrite Hdepth. cbn [Py.truthy].
  destruct hc.
  - rewrite blocks_to_markdown_lines, blocks_lines_app.
    pose proof (blocks_lines_nonempty depth cs s1) as Hc.
    destruct (blocks_lines net images_dir depth cs s1) as [lc s2].
    cbn [fst snd] in *. rewrite (join_truthy _ _ Hc).
    destruct (blocks_lines net images_dir depth after s2) as [lb s3].
    cbn [fst snd]. f_equal.
    destruct lc as [|x lc]; cbn [negb].
    + reflexivity.
    + unfold Py.append. cbn [List.app].
      apply (@join_flatten _ la (x :: lc) lb). discriminate.
  - cbn [blocks_lines List.app].
    destruct (blocks_lines net images_dir depth after s1) as [lb s3].
    reflexivity.
Qed.

End JoinPolicy.

(** The theorem [silent_blocks_are_transparent] at an unsupported block
    with two children between two paragraphs. *)
Lemma silent_blocks_are_transparent_witness :
  let p := fun t => Sample.leaf (Paragraph [Sample.plain t]) in
  let toggle := Block "t" Unsupported true [p "b"; p "c"] in
  renders_nothing (kind toggle) = true
  /\ _blocks_to_markdown Sample.always_up "out/images"
       [p "a"; toggle; p "d"] 0 Sample.fresh
     = _blocks_to_markdown Sample.always_up "out/images"
         [p "a"; p "b"; p "c"; p "d"] 0 Sample.fresh.
Proof.
  intros p toggle. split; [reflexivity|].
  exact (silent_blocks_are_transparent Sample.always_up "out/images" toggle
           [p "a"] [p "d"] 0 Sample.fresh eq_refl).
Defined.

(** ** Blocks without images *)

Section TextOnly.

Lemma block_to_markdown_pure (b : block) (depth : nat) :
  image_blocks [kind b] = [] ->
  exists md, forall net images_dir s,
      _block_to_markdown net images_dir b depth s = (md, s).
Proof.
  unfold _block_to_markdown. intros Hk.
  destruct (kind b); try discriminate Hk;
    try (eexists; intros; reflexivity).
  - destruct (Py.truthy (Py.strip expr)); eexists; intros; reflexivity.
  - destruct (Py.truthy (_extract_plain_text bookmark_caption));
      eexists; intros; reflexivity.
Qed.

Lemma image_blocks_app (a b : list block_kind) :
  image_blocks (a ++ b)%list = (image_blocks a ++ image_blocks b)%list.
Proof. apply flat_map_app. Qed.

Lemma blocks_lines_pure_of (depth : nat) (blocks : list block) :
  Forall (fun b => image_blocks (encounter b) = [] ->
                   forall depth, exists ls, forall net images_dir s,
                       block_lines net images_dir depth b s = (ls, s))
    blocks ->
  image_blocks (encounters blocks) = [] ->
  exists ls, forall net images_dir s,
      blocks_lines net images_dir depth blocks s = (ls, s).
Proof.
  induction 1 as [|b r Hb _ IH]; intros Himg.
  - exists []. reflexivity.
  - unfold encounters in Himg. cbn [flat_map] in Himg.
    rewrite image_blocks_app in Himg.
    apply List.app_eq_nil in Himg as [Hb' Hr'].
    destruct (Hb Hb' depth) as [l1 H1]. destruct (IH Hr') as [l2 H2].
    exists (l1 ++ l2)%list. intros net images_dir s.
    rewrite blocks_lines_cons, H1, H2. reflexivity.
Qed.

Lemma block_lines_pure (b : block) :
  image_blocks (encounter b) = [] ->
  forall depth, exists ls, forall net images_dir s,
      block_lines net images_dir depth b s = (ls, s).
Proof.
  induction b as [id k hc cs IH] using block_ind. intros Himg depth.
  cbn [encounter] in Himg.
  change (k :: (if hc then flat_map encounter cs else []))
    with ([k] ++ (if hc then flat_map encounter cs else []))%list in Himg.
  rewrite image_blocks_app in Himg.
  apply List.app_eq_nil in Himg as [Hk Hcs].
  destruct (block_to_markdown_pure (Block id k hc cs) depth Hk) as [md Hmd].
  destruct hc.
  - destruct (@blocks_lines_pure_of (child_depth k depth) cs IH Hcs)
      as [ls Hls].
    eexists. intros net images_dir s.
    rewrite block_lines_unfold, Hmd.
    unfold _blocks_to_markdown, bind, ret. rewrite Hls. reflexivity.
  - eexists. intros net images_dir s.
    rewrite block_lines_unfold, Hmd. reflexivity.
Qed.

(** A document part in which no image block is met renders to a text that
    depends neither on the network nor on the image directory nor on the
    session, and leaves the session as it was: no counter value is used,
    nothing is downloaded and nothing is recorded. *)
Theorem text_only_blocks_are_pure (blocks : list block) (depth : nat) :
  image_blocks (encounters blocks) = [] ->
  exists md, forall net images_dir s,
      _blocks_to_markdown net images_dir blocks depth s = (md, s).
Proof.
  intros Himg.
  destruct (@blocks_lines_pure_of depth blocks
              (proj2 (Forall_forall _ blocks)
                 (fun b _ => block_lines_pure b)) Himg) as [ls Hls].
  eexists. intros net images_dir s.
  unfold _blocks_to_markdown, bind, ret. rewrite Hls. reflexivity.
Qed.

End TextOnly.

(** The theorem [text_only_blocks_are_pure] at a quote with a nested
    list item: the same text on a network that is up or down. *)
Lemma text_only_blocks_are_pure_witness :
  let blocks :=
    [Block "q" (Quote [Sample.plain "said"]) true
       [Sample.leaf (BulletedListItem [Sample.plain "item"])]] in
  image_blocks (encounters blocks) = []
  /\ exists md, forall net images_dir s,
        _blocks_to_markdown net images_dir blocks 0 s = (md, s).
Proof.
  intros blocks. split; [reflexivity|].
  exact (text_only_blocks_are_pure blocks 0 eq_refl).
Defined.

(** ** The ledger *)

Section Ledger.

Variable net : network.

Lemma successful_app (n : nat) (a b : list (string * string)) :
  successful net n (a ++ b)%list
  = (successful net n a ++ successful net (n + List.length a) b)%list.
Proof.
  revert n. induction a as [|[u p] a IH]; intros n; cbn [successful List.app].
  - now rewrite Nat.add_0_r.
  - rewrite IH, <- List.app_assoc. cbn [List.length].
    now rewrite Nat.add_succ_r.
Qed.

Lemma ledger_run_refl (s : session) : ledger_run net s s [].
Proof. unfold ledger_run. simpl. now rewrite !List.app_nil_r. Qed.

Lemma ledger_run_trans (s1 s2 s3 : session) (a b : list (string * string)) :
  ledger_run net s1 s2 a -> ledger_run net s2 s3 b ->
  ledger_run net s1 s3 (a ++ b)%list.
Proof.
  unfold ledger_run. intros [Hd1 Hi1] [Hd2 Hi2].
  rewrite Hd2, Hi2, Hd1, Hi1, successful_app, List.length_app.
  now rewrite !List.app_assoc.
Qed.

Lemma download_ledger (s : session) (url path ty : string) :
  let r := _download_image net url path s in
  ledger_run net s
    (if fst r
     then snd (images_append {| original_url := url; local_path := path;
                                type_ := ty |} (snd r))
     else snd r)
    [(url, path)].
Proof.
  unfold ledger_run, _download_image, images_append, Py.append.
  cbn [fst snd successful].
  destruct (net _ _ _); cbn [images downloads]; split; try reflexivity.
  - now rewrite map_app.
  - now rewrite !List.app_nil_r.
Qed.

Lemma block_to_markdown_ledger (images_dir : string) (b : block)
    (depth : nat) (s : session) :
  exists requests,
    ledger_run net s (snd (_block_to_markdown net images_dir b depth s))
      requests.
Proof.
  unfold _block_to_markdown.
  destruct (kind b);
    try (exists []; apply ledger_run_refl).
  - exists []. destruct (Py.truthy (Py.strip expr)); apply ledger_run_refl.
  - destruct (Py.truthy (_get_image_url image)) eqn:Hurl.
    + apply PyFacts.truthy_true in Hurl.
      rewrite (image_block_with_url net images_dir image s Hurl). cbv zeta.
      exists [(_get_image_url image,
               image_path images_dir (image_counter s + 1)
                 (_get_image_url image))].
      unfold ledger_run, Py.append.
      destruct (net _ _ _) eqn:Hnet; cbn [snd images downloads successful];
        rewrite Hnet; split; try reflexivity.
      * now rewrite map_app.
      * now rewrite !List.app_nil_r.
    + apply PyFacts.truthy_false in Hurl.
      rewrite (image_block_without_url net images_dir image s Hurl).
      exists []. apply ledger_run_refl.
  - exists [].
    destruct (Py.truthy (_extract_plain_text bookmark_caption));
      apply ledger_run_refl.
Qed.

Lemma blocks_lines_ledger_of (images_dir : string) (depth : nat)
    (blocks : list block) :
  Forall (fun b => forall depth s, exists requests,
                ledger_run net s
                  (snd (block_lines net images_dir depth b s)) requests)
    blocks ->
  forall s, exists requests,
    ledger_run net s (snd (blocks_lines net images_dir depth blocks s))
      requests.
Proof.
  induction 1 as [|b r Hb _ IH]; intros s.
  - exists []. apply ledger_run_refl.
  - rewrite blocks_lines_cons.
    destruct (Hb depth s) as [q1 H1].
    destruct (block_lines net images_dir depth b s) as [l1 s1].
    destruct (IH s1) as [q2 H2].
    destruct (blocks_lines net images_dir depth r s1) as [l2 s2].
    cbn [snd] in *. exists (q1 ++ q2)%list.
    eapply ledger_run_trans; eassumption.
Qed.

Lemma block_lines_ledger (images_dir : string) (b : block) :
  forall depth s, exists requests,
    ledger_run net s (snd (block_lines net images_dir depth b s)) requests.
Proof.
  induction b as [id k hc cs IH] using block_ind. intros depth s.
  rewrite block_lines_unfold.
  destruct (block_to_markdown_ledger images_dir (Block id k hc cs) depth s)
    as [q1 H1].
  destruct (_block_to_markdown _ _ _ _ _) as [md s1]. cbn [snd] in H1.
  destruct hc.
  - destruct (@blocks_lines_ledger_of images_dir (child_depth k depth) cs
                IH s1) as [q2 H2].
    unfold _blocks_to_markdown, bind, ret.
    destruct (blocks_lines _ _ _ _ _) as [ls s2]. cbn [snd] in *.
    exists (q1 ++ q2)%list. eapply ledger_run_trans; eassumption.
  - exists q1. exact H1.
Qed.

Lemma blocks_to_markdown_ledger (images_dir : string)
    (blocks : list block) (depth : nat) (s : session) :
  exists requests,
    ledger_run net s
      (snd (_blocks_to_markdown net images_dir blocks depth s)) requests.
Proof.
  unfold _blocks_to_markdown, bind, ret.
  destruct (@blocks_lines_ledger_of images_dir depth blocks
              (proj2 (Forall_forall _ blocks)
                 (fun b _ => block_lines_ledger images_dir b)) s)
    as [q H].
  destruct (blocks_lines _ _ _ _ _). now exists q.
Qed.

Lemma fetch_cover_ledger (cover : option image_obj) (images_dir : string)
    (s : session) :
  exists requests,
    ledger_run net s (snd (fetch_cover net cover images_dir s)) requests.
Proof.
  unfold fetch_cover. destruct cover as [c|];
    [|exists []; apply ledger_run_refl].
  destruct (Py.truthy (_get_image_url c));
    [|exists []; apply ledger_run_refl].
  eexists. unfold bind, ret.
  pose proof (download_ledger s (_get_image_url c)
                (Path_div images_dir
                   ("cover" ++ _get_extension (_get_image_url c)))
                "cover") as H.
  cbv zeta in H.
  destruct (_download_image net _ _ s) as [ok s1]. cbn [fst snd] in H.
  destruct ok; [|exact H].
  destruct (images_append _ s1) as [u s2]. exact H.
Qed.

(** The session and the ledger at the end of [_process_page]. *)
Lemma process_page_session (page : page) (output_dir : string)
    (s : session) :
  let images_dir := Path_div output_dir "images" in
  let s1 := snd (fetch_cover net (cover page) images_dir
                   (snd (reset_image_tracking s))) in
  let s2 := snd (_blocks_to_markdown net images_dir (page_blocks page) 0
                   s1) in
  snd (_process_page net page output_dir s) = s2
  /\ article_images (fst (_process_page net page output_dir s)) = images s2.
Proof.
  cbv zeta. unfold _process_page, bind.
  destruct (reset_image_tracking s) as [u s0]. cbn [snd].
  destruct (fetch_cover _ _ _ s0) as [ci s1]. cbn [snd].
  destruct (_blocks_to_markdown _ _ _ _ s1) as [md s2].
  split; reflexivity.
Qed.

(** The ledger of a conversion holds exactly the downloads of this
    conversion that succeeded, cover first and then the images in the
    order of their numbers, each with its URL and its local path; nothing
    of an earlier conversion stays in it. *)
Theorem ledger_is_the_successful_downloads (page : page)
    (output_dir : string) (s : session) :
  let images_dir := Path_div output_dir "images" in
  let urls :=
    extracted_urls (image_blocks (encounters (page_blocks page))) in
  let requests :=
    (cover_download (cover page) images_dir
       ++ numbered_from images_dir 1 urls)%list in
  let art := fst (_process_page net page output_dir s) in
  map ledger_key (article_images art)
  = successful net (List.length (downloads s)) requests
  /\ article_images art = images (snd (_process_page net page output_dir s)).
Proof.
  intros images_dir urls requests art.
  destruct (process_page_session page output_dir s) as [Hs Hart].
  fold images_dir in Hs, Hart. fold art in Hart.
  set (s0 := snd (reset_image_tracking s)) in *.
  destruct (fetch_cover_ledger (cover page) images_dir s0) as [q1 H1].
  pose proof (fetch_cover_run net (cover page) images_dir s0) as [Hd1 Hc1].
  set (s1 := snd (fetch_cover net (cover page) images_dir s0)) in *.
  destruct (blocks_to_markdown_ledger images_dir (page_blocks page) 0 s1)
    as [q2 H2].
  pose proof (blocks_to_markdown_run net images_dir (page_blocks page) 0 s1)
    as [Hd2 Hc2].
  set (s2 := snd (_blocks_to_markdown net images_dir (page_blocks page) 0
                    s1)) in *.
  fold urls in Hd2.
  assert (Hq1 : q1 = cover_download (cover page) images_dir).
  { destruct H1 as [H1 _]. rewrite Hd1 in H1.
    now apply List.app_inv_head in H1. }
  assert (Hq2 : q2 = numbered_from images_dir 1 urls).
  { destruct H2 as [H2 _]. rewrite Hd2, Hc1 in H2.
    apply List.app_inv_head in H2. now rewrite <- H2. }
  pose proof (@ledger_run_trans s0 s1 s2 q1 q2 H1 H2) as [_ Hi].
  rewrite Hq1, Hq2 in Hi. fold requests in Hi.
  split; [|now rewrite Hs].
  rewrite Hart, Hi. reflexivity.
Qed.

End Ledger.

(** ** File names *)

Section FileNames.

Lemma get_extension_in_list (url : string) :
  In (_get_extension url) image_extensions.
Proof.
  unfold _get_extension.
  assert (Hdefault :
    In (if Py.contains "amazonaws.com" url || Py.contains "notion" url
        then ".png" else ".jpg") image_extensions).
  { destruct (_ || _); simpl; auto. }
  destruct (Py.contains "." (Py.split_head "?" url)); [|exact Hdefault].
  destruct (Py.mem _ image_extensions) eqn:Hmem; [|exact Hdefault].
  now apply PathFacts.mem_In.
Qed.

Lemma extension_starts_with_dot (url : string) :
  exists e, _get_extension url = String "." e.
Proof.
  pose proof (get_extension_in_list url) as H.
  simpl in H. decompose [or] H; try contradiction;
    match goal with Heq : _ = _get_extension url |- _ => rewrite <- Heq end;
    eexists; reflexivity.
Qed.

(** Whatever the URL, the extension given to the file is one of the six
    recognised ones, in lower case, with its dot and without a slash: a
    local file name never takes anything else from the URL. *)
Theorem get_extension_is_recognised (url : string) :
  In (_get_extension url) image_extensions
  /\ Py.lower (_get_extension url) = _get_extension url
  /\ Py.has_char "/" (_get_extension url) = false
  /\ Py.has_char "?" (_get_extension url) = false.
Proof.
  pose proof (get_extension_in_list url) as H.
  split; [exact H|].
  simpl in H. decompose [or] H; try contradiction;
    match goal with Heq : _ = _get_extension url |- _ => rewrite <- Heq end;
    repeat split.
Qed.

Lemma uint_string_digits (d : Decimal.uint) :
  all_digits (NilEmpty.string_of_uint d) = true.
Proof. induction d; simpl; auto. Qed.

Lemma repeat_zero_digits (k : nat) : all_digits (Py.repeat "0" k) = true.
Proof. induction k; simpl; auto. Qed.

Lemma all_digits_app (a b : string) :
  all_digits (a ++ b) = all_digits a && all_digits b.
Proof.
  induction a as [|c a IH]; simpl; [reflexivity|].
  now rewrite IH, andb_assoc.
Qed.

Lemma format_03d_digits (n : nat) : all_digits (Py.format_03d n) = true.
Proof.
  unfold Py.format_03d.
  now rewrite all_digits_app, repeat_zero_digits, uint_string_digits.
Qed.

Lemma parse_padded (k : nat) (d : string) (u : Decimal.uint) :
  NilEmpty.uint_of_string d = Some u ->
  parse_counter (Py.repeat "0" k ++ d) = Some (Nat.of_uint u).
Proof.
  intros Hd. unfold parse_counter. induction k as [|k IH].
  - simpl. now rewrite Hd.
  - cbn [Py.repeat]. rewrite PyFacts.app_assoc.
    change ("0" ++ (Py.repeat "0" k ++ d))
      with (String "0" (Py.repeat "0" k ++ d)).
    cbn [NilEmpty.uint_of_string].
    destruct (NilEmpty.uint_of_string (Py.repeat "0" k ++ d)) as [v|];
      [|discriminate].
    simpl in IH. injection IH as IH. simpl. f_equal.
    rewrite <- IH. reflexivity.
Qed.

Lemma parse_format_03d (n : nat) : parse_counter (Py.format_03d n) = Some n.
Proof.
  unfold Py.format_03d.
  rewrite (parse_padded _ _ _ (NilEmpty.usu (Nat.to_uint n))).
  now rewrite Unsigned.of_to.
Qed.

(** The number of an image can be read back from its three-digit field:
    parsing what [f"{n:03d}"] prints gives [n], for every [n], also beyond
    999; so two counter values never print alike. *)
Theorem format_03d_round_trip (n : nat) :
  parse_counter (Py.format_03d n) = Some n
  /\ forall m : nat, Py.format_03d n = Py.format_03d m -> n = m.
Proof.
  split; [apply parse_format_03d|].
  intros m Heq. pose proof (parse_format_03d n) as Hn.
  rewrite Heq, parse_format_03d in Hn. now injection Hn.
Qed.

End FileNames.

Section DistinctFiles.

Lemma str_app_inv_head (a x y : string) : a ++ x = a ++ y -> x = y.
Proof.
  induction a as [|c a IH]; simpl; [auto|]. intros [= H]. auto.
Qed.

Lemma digits_prefix_unique (d1 d2 e1 e2 : string) :
  all_digits d1 = true -> all_digits d2 = true ->
  d1 ++ String "." e1 = d2 ++ String "." e2 -> d1 = d2.
Proof.
  revert d2. induction d1 as [|c d1 IH]; intros [|c2 d2] H1 H2 Heq.
  - reflexivity.
  - simpl in Heq. injection Heq as Hc _. subst c2. discriminate H2.
  - simpl in Heq. injection Heq as Hc _. subst c. discriminate H1.
  - simpl in *. injection Heq as Hc Heq. subst c2.
    apply andb_prop in H1 as [_ H1]. apply andb_prop in H2 as [_ H2].
    f_equal. eauto.
Qed.

Lemma image_path_inj (images_dir : string) (n m : nat) (u v : string) :
  image_path images_dir n u = image_path images_dir m v -> n = m.
Proof.
  unfold image_path, Path_div. intros H.
  apply str_app_inv_head in H.
  apply (str_app_inv_head "/image_") in H.
  destruct (extension_starts_with_dot u) as [eu Hu].
  destruct (extension_starts_with_dot v) as [ev Hv].
  rewrite Hu, Hv in H.
  apply digits_prefix_unique in H; try apply format_03d_digits.
  pose proof (parse_format_03d n) as Hn.
  rewrite H, parse_format_03d in Hn. now injection Hn.
Qed.

Lemma numbered_from_targets (images_dir : string) (m : nat)
    (urls : list string) (p : string) :
  In p (map snd (numbered_from images_dir m urls)) ->
  exists k u, m <= k /\ p = image_path images_dir k u.
Proof.
  revert m. induction urls as [|u r IH]; intros m; simpl; [contradiction|].
  intros [<- | H].
  - exists m, u. split; [lia | reflexivity].
  - destruct (IH (S m) H) as (k & v & Hk & ->).
    exists k, v. split; [lia | reflexivity].
Qed.

Lemma numbered_from_NoDup (images_dir : string) (m : nat)
    (urls : list string) :
  NoDup (map snd (numbered_from images_dir m urls)).
Proof.
  revert m. induction urls as [|u r IH]; intros m; simpl; constructor.
  - intros H. apply numbered_from_targets in H as (k & v & Hk & Heq).
    apply image_path_inj in Heq. lia.
  - apply IH.
Qed.

Lemma process_page_downloads (net : network) (page : page)
    (output_dir : string) (s : session) :
  let images_dir := Path_div output_dir "images" in
  downloads (snd (_process_page net page output_dir s))
  = (downloads s
       ++ cover_download (cover page) images_dir
       ++ numbered_from images_dir 1
            (extracted_urls (image_blocks (encounters (page_blocks page)))))%list.
Proof.
  intros images_dir.
  rewrite (proj1 (process_page_session net page output_dir s)).
  fold images_dir.
  set (s0 := snd (reset_image_tracking s)).
  pose proof (fetch_cover_run net (cover page) images_dir s0) as [Hd1 Hc1].
  set (s1 := snd (fetch_cover net (cover page) images_dir s0)) in *.
  pose proof (blocks_to_markdown_run net images_dir (page_blocks page) 0 s1)
    as [Hd2 _].
  rewrite Hd2, Hd1, Hc1. subst s0. cbn [reset_image_tracking snd downloads
    image_counter]. now rewrite <- List.app_assoc.
Qed.

(** Within one conversion no two downloads are written to the same local
    file: the cover and every numbered image have paths of their own,
    whatever the URLs are and however many images the page has. *)
Theorem downloads_go_to_distinct_files (net : network) (page : page)
    (output_dir : string) (s : session) :
  exists requests,
    downloads (snd (_process_page net page output_dir s))
    = (downloads s ++ requests)%list
    /\ NoDup (map snd requests).
Proof.
  eexists. split; [apply process_page_downloads|].
  rewrite map_app. unfold cover_download.
  destruct (cover page) as [c|]; [|apply numbered_from_NoDup].
  destruct (Py.truthy (_get_image_url c)); [|apply numbered_from_NoDup].
  cbn [map List.app snd]. constructor; [|apply numbered_from_NoDup].
  intros H. apply numbered_from_targets in H as (k & v & _ & Heq).
  unfold image_path, Path_div in Heq.
  apply str_app_inv_head in Heq. discriminate Heq.
Qed.

End DistinctFiles.

(** ** Table rows *)

Section TableLines.

Lemma replace_char_removes (c : ascii) (new s : string) :
  Py.has_char c new = false ->
  Py.has_char c (Py.replace_char c new s) = false.
Proof.
  intros Hnew. induction s as [|x s IH]; simpl; [reflexivity|].
  destruct (Ascii.eqb x c) eqn:Hx.
  - now rewrite PathFacts.has_char_app, Hnew, IH.
  - simpl. now rewrite Hx.
Qed.

Lemma join_without_char (c : ascii) (sep : string) (parts : list string) :
  Py.has_char c sep = false ->
  Forall (fun p => Py.has_char c p = false) parts ->
  Py.has_char c (Py.join sep parts) = false.
Proof.
  intros Hsep. unfold Py.join. induction 1 as [|p r Hp Hr IH]; simpl.
  - reflexivity.
  - destruct r as [|q r]; [exact Hp|].
    now rewrite !PathFacts.has_char_app, Hp, Hsep, IH.
Qed.

Lemma row_line_single (cells : list rich_text) :
  Py.has_char "010" (row_line cells) = false.
Proof.
  unfold row_line. rewrite !PathFacts.has_char_app.
  rewrite join_without_char; [reflexivity | reflexivity |].
  apply Forall_forall. intros t Ht. apply in_map_iff in Ht as (cell & <- & _).
  unfold cell_text. now apply replace_char_removes.
Qed.

Lemma separator_line_single (n : nat) :
  Py.has_char "010" (separator_line n) = false.
Proof.
  unfold separator_line. rewrite !PathFacts.has_char_app.
  rewrite join_without_char; [reflexivity | reflexivity |].
  apply Forall_forall. intros t Ht. apply repeat_spec in Ht. now subst t.
Qed.

Lemma table_rows_loop_single (i : nat) (rows : list block)
    (md_rows : list string) :
  Forall (fun l => Py.has_char "010" l = false) md_rows ->
  Forall (fun l => Py.has_char "010" l = false)
    (table_rows_loop i rows md_rows).
Proof.
  revert i md_rows. induction rows as [|row rest IH]; intros i md_rows Hacc.
  - exact Hacc.
  - cbn [table_rows_loop]. destruct (kind row); try (apply IH; exact Hacc).
    apply IH. unfold Py.append.
    fold (row_line cells). fold (separator_line (List.length cells)).
    destruct (i =? 0)%nat; repeat (apply Forall_app; split);
      try exact Hacc; repeat constructor;
      try apply row_line_single; apply separator_line_single.
Qed.

Lemma count_char_app (c : ascii) (a b : string) :
  count_char c (a ++ b) = count_char c a + count_char c b.
Proof.
  induction a as [|x a IH]; simpl; [reflexivity|]. rewrite IH. lia.
Qed.

Lemma count_char_absent (c : ascii) (s : string) :
  Py.has_char c s = false -> count_char c s = 0.
Proof.
  induction s as [|x s IH]; simpl; [reflexivity|].
  destruct (Ascii.eqb x c); [discriminate | exact IH].
Qed.

Lemma count_newlines_of_lines (lines : list string) :
  Forall (fun l => Py.has_char "010" l = false) lines ->
  count_char "010" (Py.join Py.nl lines) = pred (List.length lines).
Proof.
  unfold Py.join. induction 1 as [|l r Hl Hr IH]; [reflexivity|].
  cbn [String.concat List.length pred].
  destruct r as [|l2 r].
  - now apply count_char_absent.
  - rewrite !count_char_app, (count_char_absent _ _ Hl), IH. reflexivity.
Qed.

Lemma table_lines_length (rows : list block) :
  List.length (table_rows_loop 0 rows [])
  = List.length (filter is_table_row rows)
    + match rows with
      | row :: _ => if is_table_row row then 1 else 0
      | [] => 0
      end.
Proof.
  assert (Hlater : forall rs, List.length (row_lines rs)
                              = List.length (filter is_table_row rs)).
  { induction rs as [|r rs IH]; [reflexivity|].
    unfold row_lines, is_table_row in *. cbn [flat_map filter].
    destruct (kind r); cbn [List.app List.length]; now rewrite IH. }
  destruct rows as [|row rest]; [reflexivity|].
  cbn [table_rows_loop filter].
  assert (Hrow : is_table_row row
                 = match kind row with TableRow _ => true | _ => false end)
    by reflexivity.
  rewrite Hrow. clear Hrow.
  destruct (kind row); rewrite ?table_rows_loop_later, ?Hlater;
    try (cbn [List.length]; lia).
  cbn [Nat.eqb]. rewrite table_rows_loop_acc, table_rows_loop_later.
  unfold Py.append. rewrite !List.length_app, Hlater. cbn [List.length]. lia.
Qed.

(** A table that has children renders on exactly one line per table row,
    plus one for the separator when the first child is a table row,
    whatever the cells contain: a newline inside a cell never breaks a
    row. *)
Theorem table_rows_stay_on_one_line (table_block : block) :
  children table_block <> [] ->
  count_char "010" (_table_to_markdown table_block)
  = pred (List.length (filter is_table_row (children table_block))
          + match children table_block with
            | row :: _ => if is_table_row row then 1 else 0
            | [] => 0
            end).
Proof.
  intros Hrows. unfold _table_to_markdown.
  destruct (children table_block) as [|row rest] eqn:Hc; [contradiction|].
  rewrite count_newlines_of_lines
    by (apply table_rows_loop_single; constructor).
  now rewrite table_lines_length.
Qed.

End TableLines.

(** The theorem [table_rows_stay_on_one_line] at a table whose cells hold
    newlines and pipes: two rows and the separator, on three lines. *)
Lemma table_rows_stay_on_one_line_witness :
  let cell := [Sample.plain ("a" ++ Py.nl ++ "b|c")] in
  let table := Block "t" Table true [Sample.row [cell]; Sample.row [cell]] in
  children table <> []
  /\ count_char "010" (_table_to_markdown table) = 2
  /\ _table_to_markdown table
     = "| a<br>b\|c |" ++ Py.nl ++ "| --- |" ++ Py.nl ++ "| a<br>b\|c |".
Proof.
  intros cell table.
  assert (H : children table <> []) by discriminate.
  split; [exact H | split; [|reflexivity]].
  exact (table_rows_stay_on_one_line table H).
Defined.

(** ** Pagination *)

Section Pagination.

Variable list_children : children_list.

Lemma get_all_blocks_loop_served (pages : list children_page)
    (cursor : option string) :
  served list_children cursor pages ->
  forall fuel blocks,
    List.length pages <= fuel ->
    get_all_blocks_loop fuel list_children blocks cursor
    = Some (blocks ++ concat (map results pages))%list.
Proof.
  induction 1 as [cursor Hlast | cursor rest Hmore Hrest IH];
    intros [|fuel] blocks Hfuel; cbn [List.length] in Hfuel; try lia;
    cbn [get_all_blocks_loop map concat].
  - rewrite Hlast. cbn [negb]. now rewrite List.app_nil_r.
  - rewrite Hmore. cbn [negb]. rewrite IH by lia.
    now rewrite List.app_assoc.
Qed.

Lemma get_all_blocks_loop_inv (fuel : nat) :
  forall blocks cursor result,
    get_all_blocks_loop fuel list_children blocks cursor = Some result ->
    exists pages,
      served list_children cursor pages
      /\ List.length pages <= fuel
      /\ result = (blocks ++ concat (map results pages))%list.
Proof.
  induction fuel as [|fuel IH]; intros blocks cursor result;
    cbn [get_all_blocks_loop]; [discriminate|].
  destruct (has_more (list_children cursor)) eqn:Hmore; cbn [negb].
  - intros H. apply IH in H as (pages & Hserved & Hlen & ->).
    exists (list_children cursor :: pages). split; [|split].
    + now apply served_more.
    + cbn [List.length]. lia.
    + cbn [map concat]. now rewrite List.app_assoc.
  - intros [= <-]. exists [list_children cursor]. split; [|split].
    + now apply served_last.
    + cbn [List.length]. lia.
    + cbn [map concat]. now rewrite List.app_nil_r.
Qed.

(** [_get_all_blocks] returns, within a bound on the number of requests,
    exactly when the API serves from the start a chain of pages that ends
    with a page that has no more and is no longer than the bound; what it
    returns is then the results of these pages, one after the other, in
    the order served, with no block lost or repeated. *)
Theorem get_all_blocks_concatenates_pages (fuel : nat)
    (blocks : list block) :
  _get_all_blocks fuel list_children = Some blocks <->
  exists pages,
    served list_children None pages
    /\ List.length pages <= fuel
    /\ blocks = concat (map results pages).
Proof.
  unfold _get_all_blocks. split.
  - intros H. apply get_all_blocks_loop_inv in H as (pages & Hs & Hl & ->).
    now exists pages.
  - intros (pages & Hserved & Hlen & ->).
    now rewrite (get_all_blocks_loop_served pages None Hserved fuel []
                   Hlen).
Qed.

Lemma get_all_blocks_loop_stuck (fuel : nat) (blocks : list block) :
  has_more (list_children None) = true ->
  next_cursor (list_children None) = None ->
  get_all_blocks_loop fuel list_children blocks None = None.
Proof.
  intros Hmore Hnext. revert blocks.
  induction fuel as [|fuel IH]; intros blocks; [reflexivity|].
  cbn [get_all_blocks_loop]. rewrite Hmore, Hnext. apply IH.
Qed.

(** When the first page says that there is more and gives no cursor, the
    loop asks for the first page again and again: [_get_all_blocks] does
    not return, whatever the number of requests allowed. *)
Theorem get_all_blocks_needs_a_cursor :
  has_more (list_children None) = true ->
  next_cursor (list_children None) = None ->
  forall fuel, _get_all_blocks fuel list_children = None.
Proof.
  intros Hmore Hnext fuel. now apply get_all_blocks_loop_stuck.
Qed.

End Pagination.

(** The theorem [get_all_blocks_needs_a_cursor] at an API that always
    answers that there is more, without a cursor. *)
Lemma get_all_blocks_needs_a_cursor_witness :
  let api : children_list :=
    fun _ => {| results := [Sample.leaf Divider]; has_more := true;
                next_cursor := None |} in
  has_more (api None) = true
  /\ next_cursor (api None) = None
  /\ _get_all_blocks 100 api = None.
Proof.
  intros api. split; [reflexivity | split; [reflexivity|]].
  exact (get_all_blocks_needs_a_cursor api eq_refl eq_refl 100).
Defined.

(** ** Fetching a page *)

Section FetchPage.

Variable net : network.
Variable notion : client.

Lemma remove_char_idempotent (c : ascii) (s : string) :
  Py.replace_char c "" (Py.replace_char c "" s) = Py.replace_char c "" s.
Proof.
  induction s as [|x s IH]; simpl; [reflexivity|].
  destruct (Ascii.eqb x c) eqn:Hx; simpl; [exact IH|].
  now rewrite Hx, IH.
Qed.

(** A page id is looked up without its hyphens: the id sent to the API
    has none, and two ids that differ only by hyphens, such as the dashed
    and the plain form of a UUID, give the same result. *)
Theorem fetch_by_page_id_ignores_hyphens (page_id output_dir : string)
    (s : session) :
  let sent := Py.replace_char "-" "" page_id in
  Py.has_char "-" sent = false
  /\ fetch_by_page_id net notion page_id output_dir s
     = match pages_retrieve notion sent with
       | inl e => inl e
       | inr page => inr (_process_page net page output_dir s)
       end
  /\ forall other : string,
      Py.replace_char "-" "" other = sent ->
      fetch_by_page_id net notion other output_dir s
      = fetch_by_page_id net notion page_id output_dir s.
Proof.
  intros sent. split; [|split].
  - subst sent. now apply replace_char_removes.
  - reflexivity.
  - intros other Hother. unfold fetch_by_page_id. now rewrite Hother.
Qed.

(** A slug lookup succeeds exactly when a database id is configured and
    the query returns at least one page; it then converts the first page
    and ignores the others.  Without a database id it fails before any
    query, whatever the client would answer, and with no page it reports
    the slug as not found; in both cases the session is not touched. *)
Theorem fetch_by_slug_cases (database_id : option string)
    (slug output_dir : string) (s : session) :
  (Dotenv.opt_truthy database_id = false ->
   forall other : client,
     fetch_by_slug net other database_id slug output_dir s
     = inl (ValueError "DATABASE_ID is required for slug lookup"))
  /\ (forall db, database_id = Some db -> db <> "" ->
       match databases_query notion db slug with
       | inl e =>
           fetch_by_slug net notion database_id slug output_dir s = inl e
       | inr [] =>
           fetch_by_slug net notion database_id slug output_dir s
           = inl (ValueError ("Article with slug '" ++ slug ++ "' not found"))
       | inr (page :: _) =>
           fetch_by_slug net notion database_id slug output_dir s
           = inr (_process_page net page output_dir s)
       end).
Proof.
  split.
  - intros Hdb other. unfold fetch_by_slug.
    destruct database_id as [db|]; [|reflexivity].
    cbn [Dotenv.opt_truthy] in Hdb. now rewrite Hdb.
  - intros db -> Hdb. apply PyFacts.truthy_true in Hdb.
    unfold fetch_by_slug. rewrite Hdb.
    destruct (databases_query notion db slug) as [e | [|page others]];
      reflexivity.
Qed.

End FetchPage.

(** ** Environment files *)

Module DotenvFacts.

Import Dotenv.

Lemma lstrip_length (s : string) :
  String.length (Py.lstrip s) <= String.length s.
Proof.
  induction s as [|c s IH]; simpl; [lia|].
  destruct (Py.isspace c); simpl; lia.
Qed.

Lemma rstrip_length (s : string) :
  String.length (Py.rstrip s) <= String.length s.
Proof.
  induction s as [|c s IH]; simpl; [lia|].
  destruct (Py.rstrip s); [destruct (Py.isspace c)|]; simpl in *; lia.
Qed.

Lemma strip_fixed_first (c : ascii) (r : string) :
  Py.strip (String c r) = String c r -> Py.isspace c = false.
Proof.
  unfold Py.strip. cbn [Py.lstrip].
  destruct (Py.isspace c); [|reflexivity].
  intros H. apply (f_equal String.length) in H.
  pose proof (rstrip_length (Py.lstrip r)).
  pose proof (lstrip_length r). simpl in H. lia.
Qed.

Lemma lstrip_fixed (s : string) :
  Py.strip s = s -> Py.lstrip s = s.
Proof.
  destruct s as [|c r]; [reflexivity|].
  intros H. apply strip_fixed_first in H. simpl. now rewrite H.
Qed.

Lemma rstrip_fixed (s : string) :
  Py.strip s = s -> Py.rstrip s = s.
Proof.
  intros H. pose proof (lstrip_fixed s H) as Hl.
  unfold Py.strip in H. now rewrite Hl in H.
Qed.

Lemma rstrip_app_fixed (a v : string) :
  v <> "" -> Py.rstrip v = v -> Py.rstrip (a ++ v) = a ++ v.
Proof.
  intros Hne Hv. induction a as [|x a IH]; [exact Hv|].
  cbn [String.append Py.rstrip]. rewrite IH.
  destruct (a ++ v) eqn:Hav; [|reflexivity].
  destruct a; [|discriminate]. simpl in Hav. contradiction.
Qed.

Lemma lstrip_app_fixed (a b : string) :
  a <> "" -> Py.lstrip a = a -> Py.lstrip (a ++ b) = a ++ b.
Proof.
  destruct a as [|c a]; [contradiction|]. intros _. simpl.
  destruct (Py.isspace c); [|reflexivity].
  intros H. apply (f_equal String.length) in H.
  pose proof (lstrip_length a). simpl in H. lia.
Qed.

Lemma split_head_app (c : ascii) (a b : string) :
  Py.has_char c a = false -> Py.split_head c (a ++ String c b) = a.
Proof.
  induction a as [|x a IH]; simpl.
  - now rewrite Ascii.eqb_refl.
  - destruct (Ascii.eqb x c); [discriminate|]. intros H. now rewrite IH.
Qed.

Lemma after_first_app (c : ascii) (a b : string) :
  Py.has_char c a = false -> after_first c (a ++ String c b) = b.
Proof.
  induction a as [|x a IH]; simpl.
  - now rewrite Ascii.eqb_refl.
  - destruct (Ascii.eqb x c); [discriminate | exact IH].
Qed.

Lemma endswith_app (w q : string) : endswith q (w ++ q) = true.
Proof.
  unfold endswith. rewrite PyFacts.length_app.
  replace (String.length w + String.length q - String.length q)
    with (String.length w) by lia.
  rewrite PyFacts.skip_app, String.eqb_refl.
  apply andb_true_iff. split; [apply Nat.leb_le; lia | reflexivity].
Qed.

Lemma strip_ends_quoted (q : ascii) (v : string) :
  strip_ends (String q (v ++ String q "")) = v.
Proof.
  unfold strip_ends. cbn [String.length].
  rewrite PyFacts.length_app. cbn [String.length].
  replace (S (String.length v + 1) - 2) with (String.length v) by lia.
  cbn [substring]. apply PathFacts.substring_prefix.
Qed.

(** The line [key=rest], read up to the value before the quotes are
    looked at. *)
Lemma parse_line_assignment (key rest : string) :
  Py.strip key = key ->
  Py.has_char "=" key = false ->
  startswith "#" key = false ->
  rest <> "" -> Py.strip rest = rest ->
  parse_line (key ++ "=" ++ rest)
  = Some (key,
          if (startswith dquote rest && endswith dquote rest)
             || (startswith squote rest && endswith squote rest)
          then strip_ends rest else rest).
Proof.
  intros Hkey Heq Hhash Hne Hrest.
  assert (Hline : Py.strip (key ++ "=" ++ rest) = key ++ "=" ++ rest).
  { unfold Py.strip.
    assert (Hl : Py.lstrip (key ++ "=" ++ rest) = key ++ "=" ++ rest).
    { destruct key as [|c key]; [reflexivity|].
      apply lstrip_app_fixed; [discriminate | now apply lstrip_fixed]. }
    rewrite Hl, <- PyFacts.app_assoc.
    apply rstrip_app_fixed; [exact Hne | now apply rstrip_fixed]. }
  unfold parse_line. rewrite Hline.
  assert (Htruthy : Py.truthy (key ++ "=" ++ rest) = true)
    by (destruct key; reflexivity).
  assert (Hcomment : startswith "#" (key ++ "=" ++ rest) = false).
  { destruct key as [|c key]; [reflexivity|].
    unfold startswith in *.
    change ((String c key) ++ "=" ++ rest)
      with (String c (key ++ "=" ++ rest)).
    cbn [String.prefix] in Hhash |- *.
    destruct (ascii_dec "#" c); [|reflexivity].
    now destruct key. }
  rewrite Htruthy, Hcomment. cbn [negb orb].
  assert (Hhas : Py.contains "=" (key ++ "=" ++ rest) = true).
  { rewrite PathFacts.contains_char, PathFacts.has_char_app. simpl.
    apply orb_true_r. }
  rewrite Hhas.
  change (key ++ "=" ++ rest) with (key ++ String "=" rest).
  rewrite (split_head_app "=" key rest Heq),
    (after_first_app "=" key rest Heq), Hkey, Hrest.
  reflexivity.
Qed.

Lemma quoted_is_trimmed (q : ascii) (value : string) :
  Py.isspace q = false ->
  Py.strip (String q (value ++ String q "")) = String q (value ++ String q "").
Proof.
  intros Hq. unfold Py.strip. cbn [Py.lstrip]. rewrite Hq.
  change (String q (value ++ String q ""))
    with (String q value ++ String q "").
  apply rstrip_app_fixed; [discriminate|].
  simpl. now rewrite Hq.
Qed.

(** Writing and reading an assignment: a line made of a trimmed key
    without equals sign or leading hash, an equals sign and a value between
    two double quotes or two single quotes assigns exactly this value to
    this key, whatever the value contains; without quotes the same holds
    for a trimmed, non-empty value that is not itself between quotes. *)
Theorem parse_line_round_trip (key value : string) :
  Py.strip key = key ->
  Py.has_char "=" key = false ->
  startswith "#" key = false ->
  parse_line (key ++ "=" ++ dquote ++ value ++ dquote) = Some (key, value)
  /\ parse_line (key ++ "=" ++ squote ++ value ++ squote) = Some (key, value)
  /\ (value <> "" -> Py.strip value = value ->
      (startswith dquote value && endswith dquote value)
      || (startswith squote value && endswith squote value) = false ->
      parse_line (key ++ "=" ++ value) = Some (key, value)).
Proof.
  intros Hkey Heq Hhash. split; [|split].
  - change (dquote ++ value ++ dquote)
      with (String "034" (value ++ String "034" "")).
    rewrite parse_line_assignment;
      try assumption; try discriminate; try now apply quoted_is_trimmed.
    change (String "034" (value ++ String "034" ""))
      with (dquote ++ (value ++ dquote)) at 1 2.
    unfold startswith. rewrite PyFacts.prefix_app.
    rewrite <- PyFacts.app_assoc, endswith_app. cbn [andb orb].
    now rewrite strip_ends_quoted.
  - change (squote ++ value ++ squote)
      with (String "'" (value ++ String "'" "")).
    rewrite parse_line_assignment;
      try assumption; try discriminate; try now apply quoted_is_trimmed.
    change (String "'" (value ++ String "'" ""))
      with (squote ++ (value ++ squote)) at 3 4.
    unfold startswith at 2. rewrite PyFacts.prefix_app.
    rewrite <- PyFacts.app_assoc, endswith_app. cbn [andb orb].
    rewrite orb_true_r. now rewrite strip_ends_quoted.
  - intros Hne Hvalue Hquotes.
    rewrite parse_line_assignment; try assumption.
    now rewrite Hquotes.
Qed.

Lemma parse_line_round_trip_witness :
  Py.strip "NOTION_TOKEN" = "NOTION_TOKEN"
  /\ Py.has_char "=" "NOTION_TOKEN" = false
  /\ startswith "#" "NOTION_TOKEN" = false
  /\ parse_line ("NOTION_TOKEN=" ++ dquote ++ "secret = 1 # x" ++ dquote)
     = Some ("NOTION_TOKEN", "secret = 1 # x").
Proof.
  split; [reflexivity | split; [reflexivity | split; [reflexivity|]]].
  exact (proj1 (parse_line_round_trip "NOTION_TOKEN" "secret = 1 # x"
                  eq_refl eq_refl eq_refl)).
Defined.

Lemma setenv_same (key value : string) (env : environ) :
  setenv key value env key = Some value.
Proof. unfold setenv. now rewrite String.eqb_refl. Qed.

Lemma setenv_other (key value k : string) (env : environ) :
  k <> key -> setenv key value env k = env k.
Proof.
  intros H. unfold setenv. apply String.eqb_neq in H. now rewrite H.
Qed.

(** What [load_dotenv] makes of one file that it reads to its end: a
    variable that was set keeps its value, and a variable that was not set
    takes the value of the first line of the file that assigns it, later
    lines being ignored. *)
Theorem dotenv_keeps_and_first_wins (lines : list string)
    (env env' : environ) (key : string) :
  dotenv_lines lines env = (env', true) ->
  key <> "" ->
  env' key = match env key with
             | Some v => Some v
             | None => first_assignment lines key
             end.
Proof.
  intros Hload Hkey. revert env Hload.
  induction lines as [|line rest IH]; intros env Hload.
  - injection Hload as <-. cbn [first_assignment]. now destruct (env key).
  - cbn [dotenv_lines first_assignment] in *.
    destruct (parse_line line) as [[k v]|]; [|now apply IH].
    destruct (String.eqb_spec k key) as [->|Hne].
    + apply PyFacts.truthy_true in Hkey. rewrite Hkey in Hload.
      unfold is_set in Hload. cbn [andb] in Hload.
      destruct (env key) as [old|] eqn:Henv; cbn [negb] in Hload.
      * rewrite (IH env Hload), Henv. reflexivity.
      * destruct (putenv_ok key v); [|discriminate].
        rewrite (IH _ Hload), setenv_same. reflexivity.
    + destruct (Py.truthy k && negb (is_set env k)).
      * destruct (putenv_ok k v); [|discriminate].
        rewrite (IH _ Hload), setenv_other by congruence. reflexivity.
      * now apply IH.
Qed.

Lemma dotenv_lines_keeps (lines : list string) (env : environ)
    (key value : string) :
  env key = Some value -> fst (dotenv_lines lines env) key = Some value.
Proof.
  revert env. induction lines as [|line rest IH]; intros env Henv;
    cbn [dotenv_lines]; [exact Henv|].
  destruct (parse_line line) as [[k v]|]; [|now apply IH].
  destruct (Py.truthy k && negb (is_set env k)) eqn:Hset; [|now apply IH].
  destruct (putenv_ok k v); [|exact Henv].
  apply IH. rewrite setenv_other; [exact Henv|].
  intros ->. unfold is_set in Hset. rewrite Henv in Hset.
  now rewrite andb_false_r in Hset.
Qed.

Lemma load_dotenv_keeps (env_paths : list env_file) (env : environ)
    (key value : string) :
  env key = Some value -> fst (load_dotenv env_paths env) key = Some value.
Proof.
  revert env.
  induction env_paths as [|[| |lines|lines] rest IH]; intros env Henv;
    cbn [load_dotenv]; try (now apply IH); [exact Henv | |].
  { apply IH. now apply dotenv_lines_keeps. }
  pose proof (dotenv_lines_keeps lines env key value Henv) as Hkeep.
  destruct (dotenv_lines lines env) as [env' ok]. cbn [fst] in Hkeep.
  destruct ok; [exact Hkeep | now apply IH].
Qed.

(** What the [--env-file] option makes of a file that it reads to its
    end: a variable takes the value of the last line of the file that
    assigns it, also when it was set before, and keeps its value when no
    line assigns it. *)
Theorem env_file_overrides_and_last_wins (lines : list string)
    (env env' : environ) (key : string) :
  env_file_lines lines env = (env', true) ->
  env' key = match last_assignment lines key with
             | Some v => Some v
             | None => env key
             end.
Proof.
  revert env. induction lines as [|line rest IH]; intros env Hload.
  - injection Hload as <-. reflexivity.
  - cbn [env_file_lines last_assignment] in *.
    destruct (parse_line line) as [[k v]|].
    + destruct (putenv_ok k v); [|discriminate].
      rewrite (IH _ Hload).
      destruct (last_assignment rest key); [reflexivity|].
      destruct (String.eqb_spec k key) as [->|Hne].
      * apply setenv_same.
      * apply setenv_other. congruence.
    + rewrite (IH _ Hload). now destruct (last_assignment rest key).
Qed.

Lemma env_file_lines_agree (lines : list string) (env1 env0 : environ)
    (key : string) :
  env1 key = env0 key ->
  snd (env_file_lines lines env1) = snd (env_file_lines lines env0)
  /\ fst (env_file_lines lines env1) key
     = fst (env_file_lines lines env0) key.
Proof.
  revert env1 env0. induction lines as [|line rest IH]; intros env1 env0 H;
    cbn [env_file_lines]; [now split|].
  destruct (parse_line line) as [[k v]|]; [|now apply IH].
  destruct (putenv_ok k v); [|now split].
  apply IH. unfold setenv. destruct (key =? k)%string; [reflexivity | exact H].
Qed.

Lemma main_credentials_agree (args : arguments) (env1 env0 : environ) :
  env1 "NOTION_TOKEN" = env0 "NOTION_TOKEN" ->
  env1 "DATABASE_ID" = env0 "DATABASE_ID" ->
  main_credentials args env1 = main_credentials args env0.
Proof.
  intros Htoken Hdb. unfold main_credentials, load_env_file.
  destruct (env_file_arg args) as [[| |lines|lines]|]; try reflexivity.
  - destruct (env_file_lines_agree lines env1 env0 "NOTION_TOKEN" Htoken)
      as [Hok Ht].
    destruct (env_file_lines_agree lines env1 env0 "DATABASE_ID" Hdb)
      as [_ Hd].
    destruct (env_file_lines lines env1) as [e1 ok1].
    destruct (env_file_lines lines env0) as [e0 ok0].
    cbn [fst snd] in *. subst ok1. destruct ok0; [|reflexivity].
    now rewrite Ht, Hd.
  - now rewrite Htoken, Hdb.
Qed.

(** The priority of the credentials.  A non-empty token given on the
    command line is the token used, whatever the environment holds; and
    when the shell sets both [NOTION_TOKEN] and [DATABASE_ID], even to the
    empty string, the [.env] files that [load_dotenv] finds change nothing
    in what [main] does. *)
Theorem credentials_priority (args : arguments) (env0 : environ)
    (env_paths : list env_file) :
  (forall token env,
      notion_token args = Some token -> token <> "" ->
      match main_credentials args env with
      | Credentials used _ => used = token
      | Exit1 reason => reason <> TokenRequired
      end)
  /\ (is_set env0 "NOTION_TOKEN" = true ->
      is_set env0 "DATABASE_ID" = true ->
      main_credentials args (fst (load_dotenv env_paths env0))
      = main_credentials args env0).
Proof.
  split.
  - intros token env Hcli Hne. apply PyFacts.truthy_true in Hne.
    unfold main_credentials.
    destruct (load_env_file (env_file_arg args) env) as [reason|env'] eqn:Hl.
    + unfold load_env_file in Hl.
      destruct (env_file_arg args) as [[| |lines|lines]|]; try discriminate;
        try (injection Hl as <-; discriminate).
      destruct (env_file_lines lines env) as [e ok].
      destruct ok; [discriminate | injection Hl as <-; discriminate].
    + assert (Hor : or_else (notion_token args) (env' "NOTION_TOKEN")
                    = Some token).
      { unfold or_else. rewrite Hcli. cbn [opt_truthy]. now rewrite Hne. }
      rewrite Hor. cbn [opt_truthy]. rewrite Hne. cbn [negb].
      destruct (_ && _); [discriminate | reflexivity].
  - unfold is_set. intros Htoken Hdb.
    destruct (env0 "NOTION_TOKEN") as [t|] eqn:Ht; [|discriminate].
    destruct (env0 "DATABASE_ID") as [d|] eqn:Hd; [|discriminate].
    apply main_credentials_agree.
    + rewrite Ht. now apply load_dotenv_keeps.
    + rewrite Hd. now apply load_dotenv_keeps.
Qed.

End DotenvFacts.

(** The theorem [DotenvFacts.dotenv_keeps_and_first_wins] at a file that
    assigns a variable twice. *)
Lemma dotenv_keeps_and_first_wins_witness :
  let lines := ["# credentials"; "TOKEN = first"; "TOKEN=second"] in
  let env : Dotenv.environ := fun _ => None in
  Dotenv.dotenv_lines lines env
  = (fst (Dotenv.dotenv_lines lines env), true)
  /\ "TOKEN" <> ""
  /\ fst (Dotenv.dotenv_lines lines env) "TOKEN" = Some "first".
Proof.
  intros lines env.
  assert (H1 : Dotenv.dotenv_lines lines env
               = (fst (Dotenv.dotenv_lines lines env), true))
    by reflexivity.
  assert (H2 : "TOKEN" <> "") by discriminate.
  split; [exact H1 | split; [exact H2 |]].
  exact (DotenvFacts.dotenv_keeps_and_first_wins lines env _ "TOKEN" H1 H2).
Defined.

(** The theorem [DotenvFacts.env_file_overrides_and_last_wins] at the same
    file, over an environment that sets the variable. *)
Lemma env_file_overrides_and_last_wins_witness :
  let lines := ["# credentials"; "TOKEN = first"; "TOKEN=second"] in
  let env : Dotenv.environ :=
    fun k => if String.eqb k "TOKEN" then Some "shell" else None in
  Dotenv.env_file_lines lines env
  = (fst (Dotenv.env_file_lines lines env), true)
  /\ fst (Dotenv.env_file_lines lines env) "TOKEN" = Some "second".
Proof.
  intros lines env.
  assert (H1 : Dotenv.env_file_lines lines env
               = (fst (Dotenv.env_file_lines lines env), true))
    by reflexivity.
  split; [exact H1|].
  exact (DotenvFacts.env_file_overrides_and_last_wins lines env _ "TOKEN" H1).
Defined.

(** The theorem [DotenvFacts.credentials_priority] at a shell that sets an
    empty token and a [.env] file that gives one: the token of the file is
    not used, and [main] exits. *)
Lemma credentials_priority_witness :
  let args :=
    {| Dotenv.notion_token := None; Dotenv.database_id := None;
       Dotenv.env_file_arg := None; Dotenv.slug_arg := None |} in
  let env0 : Dotenv.environ :=
    fun k => if String.eqb k "NOTION_TOKEN" then Some ""
             else if String.eqb k "DATABASE_ID" then Some "db" else None in
  let env_paths := [Dotenv.Readable ["NOTION_TOKEN=secret"]] in
  Dotenv.is_set env0 "NOTION_TOKEN" = true
  /\ Dotenv.is_set env0 "DATABASE_ID" = true
  /\ Dotenv.main_credentials args (fst (Dotenv.load_dotenv env_paths env0))
     = Dotenv.Exit1 Dotenv.TokenRequired.
Proof.
  intros args env0 env_paths.
  split; [reflexivity | split; [reflexivity|]].
  exact (proj2 (DotenvFacts.credentials_priority args env0 env_paths)
           eq_refl eq_refl).
Defined.

(** ** One conversion after another *)

Section Isolation.

Variable net : network.

Lemma same_view_refl (s : session) : same_view s s.
Proof. repeat split. Qed.

Lemma image_block_same_view (images_dir : string) (image : image_obj)
    (s1 s2 : session) :
  same_view s1 s2 ->
  fst (_image_block_to_markdown net image images_dir s1)
  = fst (_image_block_to_markdown net image images_dir s2)
  /\ same_view (snd (_image_block_to_markdown net image images_dir s1))
       (snd (_image_block_to_markdown net image images_dir s2)).
Proof.
  intros (Hi & Hc & Hd).
  destruct (Py.truthy (_get_image_url image)) eqn:Hurl.
  - apply PyFacts.truthy_true in Hurl.
    rewrite !(image_block_with_url net images_dir image _ Hurl). cbv zeta.
    rewrite Hc, Hd.
    destruct (net _ _ _); cbn [fst snd]; unfold same_view, Py.append;
      cbn [images image_counter downloads];
      rewrite ?Hi, ?Hc, ?List.length_app, ?Hd; repeat split.
  - apply PyFacts.truthy_false in Hurl.
    rewrite !(image_block_without_url net images_dir image _ Hurl).
    now repeat split.
Qed.

Lemma block_to_markdown_same_view (images_dir : string) (b : block)
    (depth : nat) (s1 s2 : session) :
  same_view s1 s2 ->
  fst (_block_to_markdown net images_dir b depth s1)
  = fst (_block_to_markdown net images_dir b depth s2)
  /\ same_view (snd (_block_to_markdown net images_dir b depth s1))
       (snd (_block_to_markdown net images_dir b depth s2)).
Proof.
  intros H. unfold _block_to_markdown.
  destruct (kind b); try (split; [reflexivity | exact H]).
  - destruct (Py.truthy (Py.strip expr)); split; try reflexivity; exact H.
  - now apply image_block_same_view.
  - destruct (Py.truthy (_extract_plain_text bookmark_caption));
      split; try reflexivity; exact H.
Qed.

Lemma blocks_lines_same_view_of (images_dir : string) (depth : nat)
    (blocks : list block) :
  Forall (fun b => forall depth s1 s2, same_view s1 s2 ->
                fst (block_lines net images_dir depth b s1)
                = fst (block_lines net images_dir depth b s2)
                /\ same_view (snd (block_lines net images_dir depth b s1))
                     (snd (block_lines net images_dir depth b s2)))
    blocks ->
  forall s1 s2, same_view s1 s2 ->
    fst (blocks_lines net images_dir depth blocks s1)
    = fst (blocks_lines net images_dir depth blocks s2)
    /\ same_view (snd (blocks_lines net images_dir depth blocks s1))
         (snd (blocks_lines net images_dir depth blocks s2)).
Proof.
  induction 1 as [|b r Hb _ IH]; intros s1 s2 Hs.
  - split; [reflexivity | exact Hs].
  - rewrite !blocks_lines_cons.
    destruct (Hb depth s1 s2 Hs) as [Hl Hv].
    destruct (block_lines net images_dir depth b s1) as [l1 t1].
    destruct (block_lines net images_dir depth b s2) as [l2 t2].
    cbn [fst snd] in Hl, Hv. subst l2.
    destruct (IH t1 t2 Hv) as [Hl' Hv'].
    destruct (blocks_lines net images_dir depth r t1) as [m1 u1].
    destruct (blocks_lines net images_dir depth r t2) as [m2 u2].
    cbn [fst snd] in *. subst m2. split; [reflexivity | exact Hv'].
Qed.

Lemma block_lines_same_view (images_dir : string) (b : block) :
  forall depth s1 s2, same_view s1 s2 ->
    fst (block_lines net images_dir depth b s1)
    = fst (block_lines net images_dir depth b s2)
    /\ same_view (snd (block_lines net images_dir depth b s1))
         (snd (block_lines net images_dir depth b s2)).
Proof.
  induction b as [id k hc cs IH] using block_ind. intros depth s1 s2 Hs.
  rewrite !block_lines_unfold.
  destruct (block_to_markdown_same_view images_dir (Block id k hc cs) depth
              s1 s2 Hs) as [Hmd Hv].
  destruct (_block_to_markdown net images_dir _ depth s1) as [md1 t1].
  destruct (_block_to_markdown net images_dir _ depth s2) as [md2 t2].
  cbn [fst snd] in Hmd, Hv. subst md2.
  destruct hc; [|split; [reflexivity | exact Hv]].
  rewrite !blocks_to_markdown_lines.
  destruct (@blocks_lines_same_view_of images_dir (child_depth k depth) cs
              IH t1 t2 Hv) as [Hl Hv'].
  destruct (blocks_lines net images_dir (child_depth k depth) cs t1)
    as [m1 u1].
  destruct (blocks_lines net images_dir (child_depth k depth) cs t2)
    as [m2 u2].
  cbn [fst snd] in *. subst m2. split; [reflexivity | exact Hv'].
Qed.

Lemma fetch_cover_same_view (cover : option image_obj)
    (images_dir : string) (s1 s2 : session) :
  same_view s1 s2 ->
  fst (fetch_cover net cover images_dir s1)
  = fst (fetch_cover net cover images_dir s2)
  /\ same_view (snd (fetch_cover net cover images_dir s1))
       (snd (fetch_cover net cover images_dir s2)).
Proof.
  intros (Hi & Hc & Hd). unfold fetch_cover.
  destruct cover as [c|]; [|now repeat split].
  destruct (Py.truthy (_get_image_url c)); [|now repeat split].
  unfold bind, _download_image, images_append, ret, Py.append.
  rewrite Hd.
  destruct (net _ _ _); cbn [fst snd]; unfold same_view;
    cbn [images image_counter downloads];
    rewrite ?Hi, ?Hc, ?List.length_app, ?Hd; repeat split.
Qed.

(** A fetcher can be used for one page after another: what
    [_process_page] returns and the ledger and counter it leaves do not
    depend on the ledger and the counter that an earlier conversion left,
    only on how many downloads were made before, which the network may
    see. *)
Theorem conversions_are_isolated (page : page) (output_dir : string)
    (s1 s2 : session) :
  List.length (downloads s1) = List.length (downloads s2) ->
  fst (_process_page net page output_dir s1)
  = fst (_process_page net page output_dir s2)
  /\ same_view (snd (_process_page net page output_dir s1))
       (snd (_process_page net page output_dir s2)).
Proof.
  intros Hd.
  assert (H0 : same_view (snd (reset_image_tracking s1))
                 (snd (reset_image_tracking s2))).
  { unfold same_view, reset_image_tracking. cbn. now repeat split. }
  unfold _process_page, bind.
  destruct (reset_image_tracking s1) as [u1 a1].
  destruct (reset_image_tracking s2) as [u2 a2]. cbn [snd] in H0.
  destruct (fetch_cover_same_view (cover page)
              (Path_div output_dir "images") a1 a2 H0) as [Hc Hv].
  destruct (fetch_cover net _ _ a1) as [c1 b1].
  destruct (fetch_cover net _ _ a2) as [c2 b2].
  cbn [fst snd] in Hc, Hv. subst c2.
  pose proof (@blocks_lines_same_view_of (Path_div output_dir "images") 0
                (page_blocks page)
                (proj2 (Forall_forall _ _)
                   (fun b _ => block_lines_same_view
                                 (Path_div output_dir "images") b))
                b1 b2 Hv) as [Hl Hv'].
  rewrite !blocks_to_markdown_lines. rewrite Hl.
  destruct Hv' as (Hi' & Hc' & Hd').
  cbn [fst snd]. rewrite Hi'. split; [reflexivity|].
  now repeat split.
Qed.

End Isolation.

(** The theorem [conversions_are_isolated] at a fresh session and at a
    session that an earlier conversion left with a ledger entry and a
    counter. *)
Lemma conversions_are_isolated_witness :
  let used :=
    {| images := [{| original_url := "https://example.com/old.png";
                     local_path := "out/images/image_007.png";
                     type_ := "external" |}];
       image_counter := 7;
       downloads := [] |} in
  let page :=
    {| page_id := "p"; prop_title := [Sample.plain "T"]; prop_Name := [];
       prop_slug := []; cover := None;
       page_blocks :=
         [Sample.leaf (Image (Sample.external_image
                                "https://example.com/a.png" []))] |} in
  List.length (downloads used) = List.length (downloads Sample.fresh)
  /\ fst (_process_page Sample.always_up page "out" used)
     = fst (_process_page Sample.always_up page "out" Sample.fresh).
Proof.
  intros used page. split; [reflexivity|].
  exact (proj1 (conversions_are_isolated Sample.always_up page "out" used
                  Sample.fresh eq_refl)).
Defined.

(** The theorem [format_03d_round_trip] at a counter beyond 999. *)
Lemma format_03d_round_trip_witness :
  Py.format_03d 1234 = Py.format_03d 1234
  /\ parse_counter (Py.format_03d 1234) = Some 1234.
Proof.
  split; [reflexivity|].
  exact (proj1 (format_03d_round_trip 1234)).
Defined.

(** The theorem [fetch_by_page_id_ignores_hyphens] at the dashed and the
    plain form of an id. *)
Lemma fetch_by_page_id_ignores_hyphens_witness :
  let notion :=
    {| pages_retrieve := fun id =>
         if String.eqb id "0123456789abcdef0123456789abcdef"
         then inr SamplePages.titled
         else inl (APIResponseError "not found");
       databases_query := fun _ _ => inr [] |} in
  Py.replace_char "-" "" "0123456789abcdef0123456789abcdef"
  = Py.replace_char "-" "" "01234567-89ab-cdef-0123-456789abcdef"
  /\ fetch_by_page_id Sample.always_up notion
       "0123456789abcdef0123456789abcdef" "out" Sample.fresh
     = fetch_by_page_id Sample.always_up notion
         "01234567-89ab-cdef-0123-456789abcdef" "out" Sample.fresh.
Proof.
  intros notion.
  assert (H : Py.replace_char "-" "" "0123456789abcdef0123456789abcdef"
              = Py.replace_char "-" "" "01234567-89ab-cdef-0123-456789abcdef")
    by (vm_compute; reflexivity).
  split; [exact H|].
  exact (proj2 (proj2 (fetch_by_page_id_ignores_hyphens Sample.always_up
                         notion "01234567-89ab-cdef-0123-456789abcdef"
                         "out" Sample.fresh))
           "0123456789abcdef0123456789abcdef" H).
Defined.

(** The theorem [get_all_blocks_concatenates_pages] at an API that serves
    two pages. *)
Lemma get_all_blocks_concatenates_pages_witness :
  let second :=
    {| results := [Sample.leaf Divider]; has_more := false;
       next_cursor := None |} in
  let first :=
    {| results := [Sample.leaf (Paragraph [Sample.plain "a"])];
       has_more := true; next_cursor := Some "c1" |} in
  let api : children_list :=
    fun cursor => match cursor with None => first | Some _ => second end in
  served api None [first; second]
  /\ _get_all_blocks 2 api
     = Some [Sample.leaf (Paragraph [Sample.plain "a"]); Sample.leaf Divider].
Proof.
  intros second first api.
  assert (H : served api None [first; second]).
  { apply (served_more api None); [reflexivity|].
    apply (served_last api (Some "c1")). reflexivity. }
  split; [exact H|].
  apply (proj2 (get_all_blocks_concatenates_pages api 2 _)).
  exists [first; second]. split; [exact H | split; [apply le_n | reflexivity]].
Defined.
